(** * devconnector: the profile and post route handlers

    A shallow embedding of the Express route handlers of
    [routes/api/posts.js] and of the profile router, over an explicit
    document store, together with the properties of their behaviour.

    Documents live in three collections (users, profiles, posts).  A handler
    is a computation in a small state-and-exception monad: it reads and
    writes the store, may throw a JavaScript exception, and returns the HTTP
    response it sends.  A handler whose promise is rejected sends nothing.

    Requests are served one at a time.  Left out of the documents: the
    creation dates, the identifiers of the like entries, and the population
    of a profile's [user] reference in the answers.  The validation library,
    the URL normaliser and the store driver are not part of the sources:
    the first is modelled on its [not().isEmpty()] chain, the second is a
    parameter, the third is a finite map per collection.  The schemas of
    the collections are not part of the sources either: the store of the
    model takes a document as it is built, without the casts of a schema.
    The properties that state a 200 answer for a request with a body are
    therefore stated for bodies whose fields are strings, or under the
    hypothesis that the request was answered 200. *)

From Stdlib Require Import ZArith Ascii String List Bool Lia.
From stdpp Require Import base option list strings gmap fin_maps.

Open Scope string_scope.
Open Scope list_scope.
Open Scope Z_scope.

(** ** JavaScript arrays and strings *)

Module Js.

Section Arrays.
Context {A : Type}.

(** [Array.prototype.unshift]: the new element becomes the first one. *)
Definition unshift (x : A) (l : list A) : list A := x :: l.

(** [Array.prototype.splice(start, deleteCount)], the array left after
  the call.  A negative [start] counts from the end of the array. *)
Definition splice (start deleteCount : Z) (l : list A) : list A :=
let len := Z.of_nat (length l) in
let actualStart :=
  if start <? 0 then Z.max (len + start) 0 else Z.min start len in
let actualDeleteCount :=
  Z.min (Z.max deleteCount 0) (len - actualStart) in
take (Z.to_nat actualStart) l
  ++ drop (Z.to_nat (actualStart + actualDeleteCount)) l.
End Arrays.

(** [Array.prototype.indexOf] on an array of strings: the index of the
  first element strictly equal to [x], or [-1]. *)
Fixpoint indexOf_from (k : Z) (x : string) (l : list string) : Z :=
match l with
| [] => -1
| y :: l' => if String.eqb y x then k else indexOf_from (k + 1) x l'
end.

Definition indexOf (x : string) (l : list string) : Z := indexOf_from 0 x l.

(** White space removed by [String.prototype.trim], among the code units
  below 256: tab, line feed, vertical tab, form feed, carriage return,
  space and no-break space. *)
Definition is_white_space (c : ascii) : bool :=
let n := nat_of_ascii c in
((9 <=? n)%nat && (n <=? 13)%nat) || (n =? 32)%nat || (n =? 160)%nat.

Fixpoint trimStart (s : string) : string :=
match s with
| EmptyString => EmptyString
| String c r => if is_white_space c then trimStart r else s
end.

Fixpoint trimEnd (s : string) : string :=
match s with
| EmptyString => EmptyString
| String c r =>
    match trimEnd r with
    | EmptyString => if is_white_space c then EmptyString else String c EmptyString
    | r' => String c r'
    end
end.

Definition trim (s : string) : string := trimEnd (trimStart s).

(** [s.split(',')]: the segments between commas; never an empty array. *)
Fixpoint split_comma (s : string) : list string :=
match s with
| EmptyString => [EmptyString]
| String c r =>
    if Ascii.eqb c "," then EmptyString :: split_comma r
    else match split_comma r with
         | [] => [String c EmptyString]
         | seg :: segs => String c seg :: segs
         end
end.

End Js.

(** ** Exceptions and the handler monad *)

Inductive exn : Type :=
| TypeError (what : string)
| ReferenceError (name : string)
| CastError (kind : string).

(** [err.kind]: only a cast error carries a kind. *)
Definition kind (e : exn) : option string :=
  match e with
  | CastError k => Some k
  | _ => None
  end.

Inductive completion (A : Type) : Type :=
| Normal (a : A)
| Throw (e : exn).
Arguments Normal {A} a.
Arguments Throw {A} e.

(** ** Documents *)

(** A value of a request body field, as the handlers use it: absent, a
    string, or an array of strings. *)
Inductive bval : Type :=
| BUndefined
| BString (s : string)
| BArray (l : list string).

Record User := { u_name : string; u_avatar : string }.

Record Like := { like_user : string }.

Record Comment := {
  comment_id : string;
  comment_user : string;
  comment_text : bval;
  comment_name : string;
  comment_avatar : string
}.

(** A post; its identifier is its key in the store. *)
Record Post := {
  post_user : string;
  post_text : bval;
  post_name : string;
  post_avatar : string;
  likes : list Like;
  comments : list Comment
}.

Record Experience := {
  exp_id : string;
  exp_title : bval;
  exp_company : bval;
  exp_location : bval;
  exp_from : bval;
  exp_to : bval;
  exp_current : bval;
  exp_description : bval
}.

Record Education := {
  edu_id : string;
  edu_school : bval;
  edu_degree : bval;
  edu_fieldofstudy : bval;
  edu_from : bval;
  edu_to : bval;
  edu_current : bval;
  edu_description : bval
}.

Record SocialFields := {
  youtube : bval;
  twitter : bval;
  instagram : bval;
  linkedin : bval;
  facebook : bval
}.

Record ProfileFields := {
  pf_user : string;
  pf_company : bval;
  pf_location : bval;
  pf_website : string;
  pf_bio : bval;
  pf_skills : list string;
  pf_status : bval;
  pf_githubusername : bval;
  pf_social : SocialFields
}.

Record Profile := {
  fields : ProfileFields;
  experience : list Experience;
  education : list Education
}.

(** The document store: users and posts by their identifier, profiles by
    the identifier of the owning user (every profile query of the routers
    is by [user]). *)
Record Db := {
  users : gmap string User;
  profiles : gmap string Profile;
  posts : gmap string Post
}.

Definition set_posts (f : gmap string Post -> gmap string Post) (db : Db) : Db :=
  {| users := users db; profiles := profiles db; posts := f (posts db) |}.

Definition set_profiles (f : gmap string Profile -> gmap string Profile) (db : Db) : Db :=
  {| users := users db; profiles := f (profiles db); posts := posts db |}.

Definition set_users (f : gmap string User -> gmap string User) (db : Db) : Db :=
  {| users := f (users db); profiles := profiles db; posts := posts db |}.

Definition with_likes (ls : list Like) (p : Post) : Post :=
  {| post_user := post_user p; post_text := post_text p;
     post_name := post_name p; post_avatar := post_avatar p;
     likes := ls; comments := comments p |}.

Definition with_comments (cs : list Comment) (p : Post) : Post :=
  {| post_user := post_user p; post_text := post_text p;
     post_name := post_name p; post_avatar := post_avatar p;
     likes := likes p; comments := cs |}.

Definition with_experience (es : list Experience) (p : Profile) : Profile :=
  {| fields := fields p; experience := es; education := education p |}.

Definition with_education (es : list Education) (p : Profile) : Profile :=
  {| fields := fields p; experience := experience p; education := es |}.

(** ** Responses *)

Record ValidationError := {
  ve_msg : string;
  ve_param : string;
  ve_value : bval
}.

(** Values handed to [res.json]. *)
Inductive jsval : Type :=
| VUndefined
| VFunction (name : string)
| VString (s : string)
| VErrors (errs : list ValidationError)
| VLikes (ls : list Like)
| VComments (cs : list Comment)
| VPost (id : string) (p : Post)
| VProfile (p : Profile).

Inductive body : Type :=
| Text (s : string)
| Json (v : jsval)
| JsonObject (props : list (string * jsval)).

Record response := { status : nat; res_body : body }.

(** JSON serialisation leaves out the properties of an object whose value
    is [undefined] or a function. *)
Definition serialisable (v : jsval) : bool :=
  match v with
  | VUndefined | VFunction _ => false
  | _ => true
  end.

(** [res.status(code).json({ ... })] on an object literal. *)
Definition status_json (code : nat) (props : list (string * jsval)) : response :=
  {| status := code;
     res_body := JsonObject (List.filter (fun kv => serialisable (snd kv)) props) |}.

(** [res.json(v)] on a document or an array: status 200. *)
Definition json (v : jsval) : response := {| status := 200%nat; res_body := Json v |}.

(** [res.json({ ... })] on an object literal: status 200. *)
Definition json_object (props : list (string * jsval)) : response :=
  status_json 200%nat props.

(** [res.status(code).send(text)]. *)
Definition status_send (code : nat) (text : string) : response :=
  {| status := code; res_body := Text text |}.

(** ** The handler monad: store passing with exceptions *)

Definition M (A : Type) : Type := Db -> completion A * Db.

Definition ret {A} (a : A) : M A := fun db => (Normal a, db).

Definition throw {A} (e : exn) : M A := fun db => (Throw e, db).

Definition bind {A B} (m : M A) (k : A -> M B) : M B :=
  fun db =>
    match m db with
    | (Normal a, db') => k a db'
    | (Throw e, db') => (Throw e, db')
    end.

(** [try { body } catch (e) { handler }] *)
Definition try_catch {A} (body : M A) (handler : exn -> M A) : M A :=
  fun db =>
    match body db with
    | (Normal a, db') => (Normal a, db')
    | (Throw e, db') => handler e db'
    end.

Notation "'let!' x ':=' m 'in' k" := (bind m (fun x => k))
  (at level 10, x name, m at level 100, k at level 200).
Notation "'do!' m 'in' k" := (bind m (fun _ => k))
  (at level 10, m at level 100, k at level 200).

(** Reading a property of a value that may be [null]. *)
Definition deref {A} (what : string) (o : option A) : M A :=
  match o with
  | Some a => ret a
  | None => throw (TypeError what)
  end.

(** What the client observes of a handler run. *)
Inductive outcome : Type :=
| Sent (r : response)
| Unhandled (e : exn).

Definition run (h : M response) (db : Db) : outcome * Db :=
  match h db with
  | (Normal r, db') => (Sent r, db')
  | (Throw e, db') => (Unhandled e, db')
  end.

(** ** Request validation

    The validation chains of the routers are all of the form
    [check(field, msg).not().isEmpty()].  The validator turns the value of
    the field into a string, [undefined] and the empty array into the empty
    string and any other array into the string of its first element, and
    records an error, with the value as it was sent, when that string is
    empty. *)

Definition field (b : gmap string bval) (name : string) : bval :=
  default BUndefined (b !! name).

Definition stringify (v : bval) : string :=
  match v with
  | BString s => s
  | BArray (s :: _) => s
  | _ => EmptyString
  end.

Definition isEmpty (s : string) : bool := String.eqb s EmptyString.

Definition check_not_isEmpty (name msg : string) (b : gmap string bval)
  : list ValidationError :=
  let value := field b name in
  if isEmpty (stringify value)
  then [ {| ve_msg := msg; ve_param := name; ve_value := value |} ]
  else [].

(** [validationResult(req)] after the listed checks have run; the errors are
    in the order of the checks. *)
Definition validationResult (checks : list (string * string)) (b : gmap string bval)
  : list ValidationError :=
  flat_map (fun c => check_not_isEmpty (fst c) (snd c) b) checks.

Definition errors_isEmpty (errors : list ValidationError) : bool :=
  match errors with
  | [] => true
  | _ => false
  end.

(** ** Store operations *)

Section Routes.

(** Whether a string can be cast to a document identifier.  A query by
    identifier on a string that cannot throws a cast error of kind
    ["ObjectId"]. *)
Variable valid_oid : string -> bool.

(** [normalize(url, { forceHttps: true })] of the URL normalisation
    package: the normalised URL, or [None] when it throws on a string it
    cannot parse. *)
Variable normalize : string -> option string.

Definition cast_oid (id : string) : M unit :=
  if valid_oid id then ret tt else throw (CastError "ObjectId").

Definition Post_findById (id : string) : M (option Post) :=
  do! cast_oid id in
  fun db => (Normal (posts db !! id), db).

Definition User_findById (id : string) : M (option User) :=
  do! cast_oid id in
  fun db => (Normal (users db !! id), db).

Definition Profile_findOne (user : string) : M (option Profile) :=
  do! cast_oid user in
  fun db => (Normal (profiles db !! user), db).

(** [post.save()] on the post of identifier [id]. *)
Definition Post_save (id : string) (p : Post) : M unit :=
  fun db => (Normal tt, set_posts (insert id p) db).

(** [post.remove()] on the post of identifier [id]. *)
Definition Post_remove (id : string) : M unit :=
  fun db => (Normal tt, set_posts (delete id) db).

(** [profile.save()] on the profile loaded for [user]. *)
Definition Profile_save (user : string) (p : Profile) : M unit :=
  fun db => (Normal tt, set_profiles (insert user p) db).

(** ** [routes/api/posts.js] *)

Definition server_error : response := status_send 500%nat "Server error".

Definition msg (code : nat) (text : string) : response :=
  status_json code [("msg", VString text)].

(** [POST api/posts]; [new_id] is the identifier the store gives to the
    new document. *)
Definition create_post (caller : string) (b : gmap string bval) (new_id : string)
  : M response :=
  let errors := validationResult [("text", "Text is required")] b in
  if negb (errors_isEmpty errors) then
    ret (status_json 400%nat [("errors", VErrors errors)])
  else
    try_catch
      (let! user_ := User_findById caller in
       let! user := deref "user.name" user_ in
       let newPost :=
         {| post_user := caller; post_text := field b "text";
            post_name := u_name user; post_avatar := u_avatar user;
            likes := []; comments := [] |} in
       do! Post_save new_id newPost in
       ret (json (VPost new_id newPost)))
      (fun err => ret server_error).

(** [GET api/posts/:id] *)
Definition get_post (id : string) : M response :=
  try_catch
    (let! post := Post_findById id in
     match post with
     | None => ret (msg 404%nat "Post not found")
     | Some post => ret (json (VPost id post))
     end)
    (fun err =>
       if bool_decide (kind err = Some "ObjectId")
       then ret (msg 404%nat "Post not found")
       else ret server_error).

(** [DELETE api/posts/:id] *)
Definition delete_post (caller id : string) : M response :=
  try_catch
    (let! post := Post_findById id in
     match post with
     | None => ret (msg 404%nat "Post not found")
     | Some post =>
         if negb (String.eqb (post_user post) caller) then
           ret (msg 401%nat "User is not authorized")
         else
           do! Post_remove id in
           ret (json_object [("msg", VString "Post removed")])
     end)
    (fun err =>
       if bool_decide (kind err = Some "ObjectId")
       then ret (msg 404%nat "Post not found")
       else ret server_error).

(** The catch block of the like and unlike handlers binds the exception
    to [error] and then reads [err], a name bound nowhere in the module:
    evaluating [err.message] throws a reference error out of the handler. *)
Definition like_catch (error : exn) : M response :=
  throw (ReferenceError "err").

(** [PUT api/posts/like/:id] *)
Definition like_post (caller id : string) : M response :=
  try_catch
    (let! post_ := Post_findById id in
     let! post := deref "post.likes" post_ in
     if (0 <? length (List.filter (fun like => String.eqb (like_user like) caller)
                             (likes post)))%nat
     then ret (msg 400%nat "Post already liked")
     else
       let post := with_likes (Js.unshift {| like_user := caller |} (likes post)) post in
       do! Post_save id post in
       ret (json (VLikes (likes post))))
    like_catch.

(** [PUT api/posts/unlike/:id] *)
Definition unlike_post (caller id : string) : M response :=
  try_catch
    (let! post_ := Post_findById id in
     let! post := deref "post.likes" post_ in
     if (length (List.filter (fun like => String.eqb (like_user like) caller)
                        (likes post)) =? 0)%nat
     then ret (msg 400%nat "Post has not yet been liked")
     else
       let removeIndex := Js.indexOf caller (map like_user (likes post)) in
       let post := with_likes (Js.splice removeIndex 1 (likes post)) post in
       do! Post_save id post in
       ret (json (VLikes (likes post))))
    like_catch.

(** [POST api/posts/comment/:id]; [new_id] is the identifier given to
    the new comment. *)
Definition add_comment (caller id : string) (b : gmap string bval) (new_id : string)
  : M response :=
  let errors := validationResult [("text", "Text is required")] b in
  if negb (errors_isEmpty errors) then
    ret (status_json 400%nat [("errors", VErrors errors)])
  else
    try_catch
      (let! user_ := User_findById caller in
       let! post_ := Post_findById id in
       let! user := deref "user.name" user_ in
       let newComment :=
         {| comment_id := new_id; comment_user := caller;
            comment_text := field b "text";
            comment_name := u_name user; comment_avatar := u_avatar user |} in
       let! post := deref "post.comments" post_ in
       let post := with_comments (Js.unshift newComment (comments post)) post in
       do! Post_save id post in
       ret (json (VComments (comments post))))
      (fun err => ret server_error).

(** [DELETE api/posts/comment/:id/:comment_id] *)
Definition delete_comment (caller id comment_id_ : string) : M response :=
  try_catch
    (let! post_ := Post_findById id in
     let! post := deref "post.comments" post_ in
     let comment :=
       List.find (fun comment => String.eqb (comment_id comment) comment_id_)
                 (comments post) in
     match comment with
     | None => ret (msg 404%nat "Comment does not exist")
     | Some comment =>
         if negb (String.eqb (comment_user comment) caller) then
           ret (msg 401%nat "User is not authorized")
         else
           let removeIndex :=
             Js.indexOf caller (map comment_user (comments post)) in
           let post := with_comments (Js.splice removeIndex 1 (comments post)) post in
           do! Post_save id post in
           ret (json (VComments (comments post)))
     end)
    (fun err => ret server_error).

(** ** The profile router *)

(** [Profile.findOneAndUpdate({ user }, { $set: profileFields },
    { new: true, upsert: true })]: the listed fields replace those of the
    caller's profile, which is created when there is none; the resulting
    document is returned. *)
Definition Profile_findOneAndUpdate (user : string) (profileFields : ProfileFields)
  : M Profile :=
  do! cast_oid user in
  fun db =>
    let profile :=
      match profiles db !! user with
      | Some old =>
          {| fields := profileFields;
             experience := experience old; education := education old |}
      | None =>
          {| fields := profileFields; experience := []; education := [] |}
      end in
    (Normal profile, set_profiles (insert user profile) db).

(** [Post.deleteMany({ user })] *)
Definition Post_deleteMany (user : string) : M unit :=
  do! cast_oid user in
  fun db =>
    (Normal tt,
     set_posts (filter (fun kv => String.eqb (post_user (snd kv)) user = false)) db).

(** [Profile.findOneAndRemove({ user })] *)
Definition Profile_findOneAndRemove (user : string) : M unit :=
  do! cast_oid user in
  fun db => (Normal tt, set_profiles (delete user) db).

(** [User.findOneAndRemove({ _id })] *)
Definition User_findOneAndRemove (id : string) : M unit :=
  do! cast_oid id in
  fun db => (Normal tt, set_users (delete id) db).

(** [normalize(value, { forceHttps: true })] on a body value; anything
    but a string has no [trim] method for the package to call. *)
Definition normalize_value (value : bval) : M string :=
  match value with
  | BString s =>
      match normalize s with
      | Some url => ret url
      | None => throw (TypeError "Invalid URL")
      end
  | _ => throw (TypeError "urlString.trim is not a function")
  end.

(** [website && website !== '' ? normalize(website, ...) : ''] *)
Definition website_field (website : bval) : M string :=
  match website with
  | BUndefined => ret EmptyString
  | BString s => if String.eqb s EmptyString then ret EmptyString
                 else normalize_value website
  | BArray _ => normalize_value website
  end.

(** [Array.isArray(skills) ? skills
     : skills.split(',').map((skill) => ' ' + skill.trim())] *)
Definition skills_field (skills : bval) : M (list string) :=
  match skills with
  | BArray l => ret l
  | BString s => ret (map (fun skill => (" " ++ Js.trim skill)%string) (Js.split_comma s))
  | BUndefined => throw (TypeError "skills.split")
  end.

(** One turn of the loop over the social links:
    [if (value && value.length > 0) socialfields[key] = normalize(value, ...)] *)
Definition social_link (value : bval) : M bval :=
  match value with
  | BUndefined => ret value
  | BString s => if String.eqb s EmptyString then ret value
                 else let! url := normalize_value value in ret (BString url)
  | BArray l => match l with
                | [] => ret value
                | _ => let! url := normalize_value value in ret (BString url)
                end
  end.

(** The construction of [profileFields], in evaluation order. *)
Definition build_profileFields (caller : string) (b : gmap string bval)
  : M ProfileFields :=
  let! website := website_field (field b "website") in
  let! skills := skills_field (field b "skills") in
  let! youtube_ := social_link (field b "youtube") in
  let! twitter_ := social_link (field b "twitter") in
  let! instagram_ := social_link (field b "instagram") in
  let! linkedin_ := social_link (field b "linkedin") in
  let! facebook_ := social_link (field b "facebook") in
  ret {| pf_user := caller;
         pf_company := field b "company";
         pf_location := field b "location";
         pf_website := website;
         pf_bio := field b "bio";
         pf_skills := skills;
         pf_status := field b "status";
         pf_githubusername := field b "githubusername";
         pf_social := {| youtube := youtube_; twitter := twitter_;
                         instagram := instagram_; linkedin := linkedin_;
                         facebook := facebook_ |} |}.

Definition server_Error : response := status_send 500%nat "Server Error".

(** [GET api/profile/me] *)
Definition get_me (caller : string) : M response :=
  try_catch
    (let! profile := Profile_findOne caller in
     match profile with
     | None => ret (msg 400%nat "There is no profile for this user")
     | Some profile => ret (json (VProfile profile))
     end)
    (fun err => ret server_Error).

(** [POST api/profile] *)
Definition upsert_profile (caller : string) (b : gmap string bval) : M response :=
  let errors :=
    validationResult [("status", "Status is required");
                      ("skills", "Skills are required")] b in
  if negb (errors_isEmpty errors) then
    ret (status_json 400%nat [("errors", VErrors errors)])
  else
    let! profileFields := build_profileFields caller b in
    try_catch
      (let! profile := Profile_findOneAndUpdate caller profileFields in
       ret (json (VProfile profile)))
      (fun err => ret server_Error).

(** [GET api/profile/user/:user_id] *)
Definition get_profile_by_user (user_id : string) : M response :=
  try_catch
    (let! profile := Profile_findOne user_id in
     match profile with
     | None => ret (msg 400%nat "Profile not found")
     | Some profile => ret (json (VProfile profile))
     end)
    (fun err =>
       if bool_decide (kind err = Some "ObjectId")
       then ret (msg 400%nat "Profile not found")
       else ret server_error).

(** [DELETE api/profile] *)
Definition delete_account (caller : string) : M response :=
  try_catch
    (do! Post_deleteMany caller in
     do! Profile_findOneAndRemove caller in
     do! User_findOneAndRemove caller in
     ret (json_object [("msg", VString "User deleted")]))
    (fun err => ret server_error).

(** [PUT api/profile/experience].  On a validation error the handler
    answers [{ errors: errors.array }]: the method itself, not its
    result. *)
Definition add_experience (caller : string) (b : gmap string bval) (new_id : string)
  : M response :=
  let errors :=
    validationResult [("title", "Title is required");
                      ("company", "Company is required");
                      ("from", "From date is required")] b in
  if negb (errors_isEmpty errors) then
    ret (status_json 400%nat [("errors", VFunction "array")])
  else
    let newExp :=
      {| exp_id := new_id;
         exp_title := field b "title"; exp_company := field b "company";
         exp_location := field b "location"; exp_from := field b "from";
         exp_to := field b "to"; exp_current := field b "current";
         exp_description := field b "description" |} in
    try_catch
      (let! profile_ := Profile_findOne caller in
       let! profile := deref "profile.experience" profile_ in
       let profile :=
         with_experience (Js.unshift newExp (experience profile)) profile in
       do! Profile_save caller profile in
       ret (json (VProfile profile)))
      (fun err => ret server_error).

(** [DELETE api/profile/experience/:exp_id] *)
Definition remove_experience (caller exp_id_ : string) : M response :=
  try_catch
    (let! profile_ := Profile_findOne caller in
     let! profile := deref "profile.experience" profile_ in
     let removeIndex :=
       Js.indexOf exp_id_ (map exp_id (experience profile)) in
     let profile :=
       with_experience (Js.splice removeIndex 1 (experience profile)) profile in
     do! Profile_save caller profile in
     ret (json (VProfile profile)))
    (fun err => ret server_error).

(** [PUT api/profile/education]; the validation answer is as in
    [add_experience]. *)
Definition add_education (caller : string) (b : gmap string bval) (new_id : string)
  : M response :=
  let errors :=
    validationResult [("school", "School is required");
                      ("degree", "Degree is required");
                      ("fieldofstudy", "Field of study is required");
                      ("from", "from date is required")] b in
  if negb (errors_isEmpty errors) then
    ret (status_json 400%nat [("errors", VFunction "array")])
  else
    let newEdu :=
      {| edu_id := new_id;
         edu_school := field b "school"; edu_degree := field b "degree";
         edu_fieldofstudy := field b "fieldofstudy"; edu_from := field b "from";
         edu_to := field b "to"; edu_current := field b "current";
         edu_description := field b "description" |} in
    try_catch
      (let! profile_ := Profile_findOne caller in
       let! profile := deref "profile.education" profile_ in
       let profile :=
         with_education (Js.unshift newEdu (education profile)) profile in
       do! Profile_save caller profile in
       ret (json (VProfile profile)))
      (fun err => ret server_error).

(** [DELETE api/profile/education/:edu_id] *)
Definition remove_education (caller edu_id_ : string) : M response :=
  try_catch
    (let! profile_ := Profile_findOne caller in
     let! profile := deref "profile.education" profile_ in
     let removeIndex :=
       Js.indexOf edu_id_ (map edu_id (education profile)) in
     let profile :=
       with_education (Js.splice removeIndex 1 (education profile)) profile in
     do! Profile_save caller profile in
     ret (json (VProfile profile)))
    (fun err => ret server_error).

(** ** Requests

    A request as it reaches a handler: the auth gate has put the caller's
    identifier in [req.user.id]; identifiers that the store generates for
    new documents are part of the request here. *)
Inductive request : Type :=
| CreatePost (caller : string) (b : gmap string bval) (new_id : string)
| GetPost (id : string)
| DeletePost (caller id : string)
| LikePost (caller id : string)
| UnlikePost (caller id : string)
| AddComment (caller id : string) (b : gmap string bval) (new_id : string)
| DeleteComment (caller id comment_id_ : string)
| GetMe (caller : string)
| UpsertProfile (caller : string) (b : gmap string bval)
| GetProfileByUser (user_id : string)
| DeleteAccount (caller : string)
| AddExperience (caller : string) (b : gmap string bval) (new_id : string)
| RemoveExperience (caller exp_id_ : string)
| AddEducation (caller : string) (b : gmap string bval) (new_id : string)
| RemoveEducation (caller edu_id_ : string).

Definition handler (r : request) : M response :=
  match r with
  | CreatePost caller b new_id => create_post caller b new_id
  | GetPost id => get_post id
  | DeletePost caller id => delete_post caller id
  | LikePost caller id => like_post caller id
  | UnlikePost caller id => unlike_post caller id
  | AddComment caller id b new_id => add_comment caller id b new_id
  | DeleteComment caller id cid => delete_comment caller id cid
  | GetMe caller => get_me caller
  | UpsertProfile caller b => upsert_profile caller b
  | GetProfileByUser user_id => get_profile_by_user user_id
  | DeleteAccount caller => delete_account caller
  | AddExperience caller b new_id => add_experience caller b new_id
  | RemoveExperience caller id => remove_experience caller id
  | AddEducation caller b new_id => add_education caller b new_id
  | RemoveEducation caller id => remove_education caller id
  end.

(** The store after a request has been served. *)
Definition serve (r : request) (db : Db) : Db := snd (run (handler r) db).

(** Stores reached from one without posts by serving requests.  Users are
    registered by another router, which may change the users collection
    between two requests. *)
Inductive reachable : Db -> Prop :=
| reach_init (db : Db) : posts db = ∅ -> reachable db
| reach_users (db : Db) (us : gmap string User) :
    reachable db -> reachable (set_users (fun _ => us) db)
| reach_serve (db : Db) (r : request) : reachable db -> reachable (serve r db).

End Routes.

(** ** Vocabulary of the properties *)

(** Every post of the store has at most one like per user. *)
Definition likes_unique (db : Db) : Prop :=
  forall id p, posts db !! id = Some p -> NoDup (map like_user (likes p)).

(** Computations that leave the store as it is. *)
Definition read_only {A} (m : M A) : Prop := forall db, snd (m db) = db.

(** The links of a profile that the upsert normalises. *)
Definition links : list string :=
  ["website"; "youtube"; "twitter"; "instagram"; "linkedin"; "facebook"].

(** The link [input] of the request is absent, empty, or a string on
    which the normaliser does not throw. *)
Definition link_normalisable (normalize : string -> option string) (input : bval)
  : Prop :=
  input = BUndefined \/ input = BString EmptyString \/
  exists s url, input = BString s /\ s <> EmptyString /\ normalize s = Some url.

(** What is stored for a social link: the URL the normaliser returns for
    a non-empty link, and the input itself when it is absent or empty. *)
Definition link_stored (normalize : string -> option string) (input stored : bval)
  : Prop :=
  (input = BUndefined \/ input = BString EmptyString -> stored = input) /\
  (forall s, input = BString s -> s <> EmptyString ->
     exists url, stored = BString url /\ normalize s = Some url).

(** What is stored for the website: the URL the normaliser returns, or the
    empty string for a website that is absent or empty. *)
Definition website_stored (normalize : string -> option string)
  (input : bval) (stored : string) : Prop :=
  (input = BUndefined \/ input = BString EmptyString -> stored = EmptyString) /\
  (forall s, input = BString s -> s <> EmptyString -> normalize s = Some stored).

(** A body field that holds a text, when it is there at all. *)
Definition text_or_absent (v : bval) : Prop :=
  v = BUndefined \/ exists s, v = BString s.

(** The fields of a profile that the upsert hands to the store as they are
    in the body. *)
Definition plain_fields : list string :=
  ["status"; "company"; "location"; "bio"; "githubusername"].

(** Strings made of white space only; strings that hold a comma. *)
Definition all_white (s : string) : Prop :=
  forallb Js.is_white_space (list_ascii_of_string s) = true.

Definition has_comma (s : string) : Prop := In ","%char (list_ascii_of_string s).

(** ** Concrete stores used in the examples below *)

Module Examples.

(** Twenty-four hexadecimal digits. *)
Definition is_hex (c : ascii) : bool :=
  let n := nat_of_ascii c in
  ((48 <=? n) && (n <=? 57) || (97 <=? n) && (n <=? 102))%nat.

Definition hex24 (s : string) : bool :=
  (String.length s =? 24)%nat && forallb is_hex (list_ascii_of_string s).

(** A normaliser that prefixes the scheme and rejects strings with a space. *)
Definition https_prefix (s : string) : option string :=
  if existsb (Ascii.eqb " ") (list_ascii_of_string s) then None
  else Some ("https://" ++ s)%string.

Definition alice : string := "5f00000000000000000000a1".
Definition bob : string := "5f00000000000000000000b2".
Definition post1 : string := "5f00000000000000000000c1".
Definition post2 : string := "5f00000000000000000000c2".

Definition a_post (ls : list Like) (cs : list Comment) : Post :=
  {| post_user := alice; post_text := BString "hello";
     post_name := "Alice"; post_avatar := "a.png";
     likes := ls; comments := cs |}.

Definition db_posts (ps : list (string * Post)) : Db :=
  {| users := {[ alice := {| u_name := "Alice"; u_avatar := "a.png" |} ]};
     profiles := ∅;
     posts := list_to_map ps |}.

Definition like_of (user : string) : Like := {| like_user := user |}.

Definition comment1 : string := "5f00000000000000000000d1".
Definition comment2 : string := "5f00000000000000000000d2".

Definition a_comment (id user : string) (text : string) : Comment :=
  {| comment_id := id; comment_user := user; comment_text := BString text;
     comment_name := "Bob"; comment_avatar := "b.png" |}.

Definition exp1 : string := "5f00000000000000000000e1".
Definition exp2 : string := "5f00000000000000000000e2".
Definition exp3 : string := "5f00000000000000000000e3".
Definition edu1 : string := "5f00000000000000000000f1".
Definition edu2 : string := "5f00000000000000000000f2".

Definition an_experience (id : string) : Experience :=
  {| exp_id := id; exp_title := BString "Engineer"; exp_company := BString "Acme";
     exp_location := BUndefined; exp_from := BString "2019-01-01";
     exp_to := BUndefined; exp_current := BUndefined;
     exp_description := BUndefined |}.

Definition an_education (id : string) : Education :=
  {| edu_id := id; edu_school := BString "MIT"; edu_degree := BString "BSc";
     edu_fieldofstudy := BString "CS"; edu_from := BString "2015-09-01";
     edu_to := BUndefined; edu_current := BUndefined;
     edu_description := BUndefined |}.

Definition a_profile (es : list Experience) (ds : list Education) : Profile :=
  {| fields :=
       {| pf_user := alice; pf_company := BUndefined; pf_location := BUndefined;
          pf_website := ""; pf_bio := BUndefined; pf_skills := [" js"; " node"];
          pf_status := BString "dev"; pf_githubusername := BUndefined;
          pf_social := {| youtube := BUndefined; twitter := BUndefined;
                          instagram := BUndefined; linkedin := BUndefined;
                          facebook := BUndefined |} |};
     experience := es; education := ds |}.

Definition db_profile (p : Profile) : Db :=
  {| users := {[ alice := {| u_name := "Alice"; u_avatar := "a.png" |} ]};
     profiles := {[ alice := p ]};
     posts := ∅ |}.

(** The body [{ status: "dev", skills: "js, node" }]. *)
Definition minimal_profile_body : gmap string bval :=
  {[ "status" := BString "dev"; "skills" := BString "js, node" ]}.

End Examples.

(** ** Vocabulary of the further properties *)

(** Whether the client got a 200 answer. *)
Definition answered_200 (o : outcome) : bool :=
  match o with
  | Sent r => Nat.eqb (status r) 200
  | Unhandled _ => false
  end.

(** The caller that the auth gate put in the request; the two public
    routes have none. *)
Definition caller_of (r : request) : option string :=
  match r with
  | CreatePost caller _ _ | DeletePost caller _ | LikePost caller _
  | UnlikePost caller _ | AddComment caller _ _ _ | DeleteComment caller _ _
  | GetMe caller | UpsertProfile caller _ | DeleteAccount caller
  | AddExperience caller _ _ | RemoveExperience caller _
  | AddEducation caller _ _ | RemoveEducation caller _ => Some caller
  | GetPost _ | GetProfileByUser _ => None
  end.

(** The request stores a new post under the identifier [id]. *)
Definition creates_post (r : request) (id : string) : Prop :=
  match r with
  | CreatePost _ _ new_id => new_id = id
  | _ => False
  end.

(** The requests of [routes/api/posts.js]. *)
Definition posts_route (r : request) : bool :=
  match r with
  | CreatePost _ _ _ | GetPost _ | DeletePost _ _ | LikePost _ _
  | UnlikePost _ _ | AddComment _ _ _ _ | DeleteComment _ _ _ => true
  | _ => false
  end.

(** The fields of a post that are set when it is created. *)
Definition same_snapshot (p p' : Post) : Prop :=
  post_user p' = post_user p /\ post_text p' = post_text p /\
  post_name p' = post_name p /\ post_avatar p' = post_avatar p.

(** From [db] to [db'] nothing has changed but, at most, one list of the
    post [id]: its likes ([keeps] is [comments]) or its comments ([keeps]
    is [likes]).  No post has come or gone. *)
Definition only_post_list_changed {A} (keeps : Post -> A) (id : string) (db db' : Db)
  : Prop :=
  users db' = users db /\ profiles db' = profiles db /\
  forall id',
    match posts db !! id', posts db' !! id' with
    | None, None => True
    | Some p, Some p' =>
        keeps p' = keeps p /\ same_snapshot p p' /\ (id' <> id -> p' = p)
    | _, _ => False
    end.

(** Computations whose result does not depend on the store, and that
    leave it as it is. *)
Definition store_independent {A} (m : M A) : Prop :=
  exists c, forall db, m db = (c, db).

(** The profile that an upsert of the fields [pf] for [caller] stores. *)
Definition upserted (pf : ProfileFields) (caller : string) (db : Db) : Profile :=
  match profiles db !! caller with
  | Some old => {| fields := pf; experience := experience old;
                   education := education old |}
  | None => {| fields := pf; experience := []; education := [] |}
  end.

(** Every profile of the store is stored for the user it names. *)
Definition profiles_owned (db : Db) : Prop :=
  forall user p, profiles db !! user = Some p -> pf_user (fields p) = user.

(** The entries of a list that another user than [caller] made. *)
Definition likes_of_others (caller : string) (ls : list Like) : list Like :=
  List.filter (fun like => negb (String.eqb (like_user like) caller)) ls.

Definition comments_of_others (caller : string) (cs : list Comment) : list Comment :=
  List.filter (fun comment => negb (String.eqb (comment_user comment) caller)) cs.

(** The number of commas of a string. *)
Fixpoint count_commas (s : string) : nat :=
  match s with
  | EmptyString => 0%nat
  | String c r => ((if Ascii.eqb c "," then 1 else 0) + count_commas r)%nat
  end.

(** ** The [Alert] component of the client

    [components/layout/Alert.js]: the value the component renders for its
    [alerts] property, [null] or an array. *)

Module AlertComponent.

Record alert := { alert_id : string; alertType : string; alert_msg : string }.

(** A [<div key=... className=...>text</div>] element. *)
Record div := { key : string; className : string; children : string }.

Inductive rendered : Type :=
| RFalse
| RElements (ds : list div).

Definition Alert (alerts : option (list alert)) : rendered :=
  match alerts with
  | None => RFalse
  | Some l =>
      if (0 <? length l)%nat then
        RElements
          (map (fun alert =>
                  {| key := alert_id alert;
                     className := ("alert alert-" ++ alertType alert)%string;
                     children := alert_msg alert |}) l)
      else RFalse
  end.

End AlertComponent.

(** * Properties *)

(** ** Arrays *)

Section ArrayFacts.
Context {A : Type}.
Implicit Types (l : list A) (f : A -> string).

Lemma indexOf_from_absent f k x l :
  ~ In x (map f l) -> Js.indexOf_from k x (map f l) = -1.
Proof.
  revert k. induction l as [|y l IH]; intros k Hx; [reflexivity|].
  cbn [map Js.indexOf_from In] in *.
  destruct (String.eqb_spec (f y) x) as [Heq|Hne].
  - exfalso. apply Hx. now left.
  - apply IH. intros Hin. apply Hx. now right.
Qed.

(** The index found is that of the first element whose key is [x]. *)
Lemma indexOf_from_present f k x l :
  In x (map f l) ->
  exists l1 y l2,
    l = l1 ++ y :: l2 /\ f y = x /\ ~ In x (map f l1) /\
    Js.indexOf_from k x (map f l) = k + Z.of_nat (length l1).
Proof.
  revert k. induction l as [|y l IH]; intros k Hx; [contradiction|].
  cbn [map Js.indexOf_from In] in *.
  destruct (String.eqb_spec (f y) x) as [Heq|Hne].
  - exists [], y, l. simpl. repeat split; auto. lia.
  - destruct Hx as [Hx|Hx]; [contradiction|].
    destruct (IH (k + 1) Hx) as (l1 & z & l2 & -> & Hz & Hl1 & Hi).
    exists (y :: l1), z, l2. simpl. repeat split; auto.
    + intros [?|?]; auto.
    + rewrite Hi. lia.
Qed.

Lemma splice_one_at l1 y l2 :
  Js.splice (Z.of_nat (length l1)) 1 (l1 ++ y :: l2) = l1 ++ l2.
Proof.
  unfold Js.splice. rewrite length_app. cbn [length].
  destruct (Z.ltb_spec (Z.of_nat (length l1)) 0) as [Hneg|_]; [lia|].
  set (len := Z.of_nat (length l1 + S (length l2))).
  replace (Z.min (Z.of_nat (length l1)) len) with (Z.of_nat (length l1))
    by (subst len; lia).
  replace (Z.min (Z.max 1 0) (len - Z.of_nat (length l1))) with 1
    by (subst len; lia).
  rewrite Nat2Z.id.
  replace (Z.to_nat (Z.of_nat (length l1) + 1)) with (length l1 + 1)%nat by lia.
  rewrite take_app_length, drop_app_add.
  reflexivity.
Qed.

(** With start index [-1], [splice] removes the last element. *)
Lemma splice_minus_one l : Js.splice (-1) 1 l = removelast l.
Proof.
  destruct (decide (l = [])) as [->|Hne]; [reflexivity|].
  destruct (exists_last Hne) as (l' & y & ->).
  rewrite removelast_last. unfold Js.splice.
  rewrite length_app. cbn [length].
  change (-1 <? 0) with true. cbv iota.
  set (len := Z.of_nat (length l' + 1)).
  replace (Z.max (len + -1) 0) with (Z.of_nat (length l')) by (subst len; lia).
  replace (Z.min (Z.max 1 0) (len - Z.of_nat (length l'))) with 1
    by (subst len; lia).
  rewrite Nat2Z.id.
  replace (Z.to_nat (Z.of_nat (length l') + 1)) with (length l' + 1)%nat by lia.
  rewrite take_app_length, drop_app_add.
  simpl. apply app_nil_r.
Qed.

Lemma splice_sublist start deleteCount l :
  Js.splice start deleteCount l `sublist_of` l.
Proof.
  unfold Js.splice.
  set (len := Z.of_nat (length l)).
  set (a := if start <? 0 then Z.max (len + start) 0 else Z.min start len).
  set (c := Z.min (Z.max deleteCount 0) (len - a)).
  assert (Ha : 0 <= a <= len) by (subst a len; destruct (start <? 0) eqn:E; lia).
  assert (Hc : 0 <= c) by (subst c; lia).
  rewrite <- (take_drop (Z.to_nat a) l) at 3.
  apply sublist_app; [reflexivity|].
  replace (Z.to_nat (a + c)) with (Z.to_nat a + Z.to_nat c)%nat by lia.
  rewrite <- drop_drop. apply sublist_drop.
Qed.
End ArrayFacts.

(** ** Likes *)

Lemma liked_filter caller (ls : list Like) :
  List.filter (fun like => String.eqb (like_user like) caller) ls = []
  <-> ~ In caller (map like_user ls).
Proof.
  induction ls as [|l ls IH]; cbn [List.filter map In]; [tauto|].
  destruct (String.eqb_spec (like_user l) caller) as [Heq|Hne].
  - split; [discriminate|]. intros H. exfalso. apply H. now left.
  - rewrite IH. tauto.
Qed.

Lemma liked_length_pos caller (ls : list Like) :
  (0 <? length (List.filter (fun like => String.eqb (like_user like) caller) ls))%nat = true
  <-> In caller (map like_user ls).
Proof.
  pose proof (liked_filter caller ls) as Hf.
  destruct (List.filter _ ls) as [|x xs] eqn:E; cbn [length].
  - split; [discriminate|]. intros Hin. exfalso. now apply Hf.
  - split; [|reflexivity]. intros _.
    destruct (in_dec string_dec caller (map like_user ls)) as [Hin|Hn]; [exact Hin|].
    apply Hf in Hn. discriminate.
Qed.

Lemma liked_length_zero caller (ls : list Like) :
  (length (List.filter (fun like => String.eqb (like_user like) caller) ls) =? 0)%nat = true
  <-> ~ In caller (map like_user ls).
Proof.
  rewrite <- liked_filter.
  destruct (List.filter _ ls); cbn [length]; split; intros H;
    try reflexivity; try discriminate.
Qed.

Ltac hsimpl := cbv beta iota zeta.

(** Unfolding of the monad and of the store operations. *)
Ltac unfold_handler :=
  unfold Post_findById, User_findById, Profile_findOne, Post_save, Post_remove,
    Profile_save, Profile_findOneAndUpdate, Post_deleteMany,
    Profile_findOneAndRemove, User_findOneAndRemove, like_catch;
  unfold cast_oid, run, try_catch, deref;
  unfold bind, ret, throw.

Section LikeFacts.
Variable valid_oid : string -> bool.
Variables (db : Db) (caller id : string) (post : Post).
Hypothesis Hid : valid_oid id = true.
Hypothesis Hpost : posts db !! id = Some post.

Lemma like_post_already_liked :
  In caller (map like_user (likes post)) ->
  run (like_post valid_oid caller id) db =
    (Sent {| status := 400%nat;
             res_body := JsonObject [("msg", VString "Post already liked")] |},
     db).
Proof.
  intros Hin. apply liked_length_pos in Hin.
  unfold like_post. unfold_handler. rewrite Hid. hsimpl. rewrite Hpost. hsimpl.
  now rewrite Hin.
Qed.

Lemma like_post_fresh :
  ~ In caller (map like_user (likes post)) ->
  run (like_post valid_oid caller id) db =
    (Sent {| status := 200%nat;
             res_body := Json (VLikes ({| like_user := caller |} :: likes post)) |},
     set_posts (insert id (with_likes ({| like_user := caller |} :: likes post) post)) db).
Proof.
  intros Hn.
  assert (Hf : (0 <? length (List.filter
              (fun like => String.eqb (like_user like) caller) (likes post)))%nat = false).
  { apply not_true_is_false. intros H. now apply liked_length_pos in H. }
  unfold like_post. unfold_handler. rewrite Hid. hsimpl. rewrite Hpost. hsimpl.
  now rewrite Hf.
Qed.

Lemma unlike_post_not_liked :
  ~ In caller (map like_user (likes post)) ->
  run (unlike_post valid_oid caller id) db =
    (Sent {| status := 400%nat;
             res_body := JsonObject [("msg", VString "Post has not yet been liked")] |},
     db).
Proof.
  intros Hn. apply liked_length_zero in Hn.
  unfold unlike_post. unfold_handler. rewrite Hid. hsimpl. rewrite Hpost. hsimpl.
  now rewrite Hn.
Qed.

Lemma unlike_post_liked :
  In caller (map like_user (likes post)) ->
  exists before like after,
    likes post = before ++ like :: after /\
    like_user like = caller /\
    ~ In caller (map like_user before) /\
    run (unlike_post valid_oid caller id) db =
      (Sent {| status := 200%nat; res_body := Json (VLikes (before ++ after)) |},
       set_posts (insert id (with_likes (before ++ after) post)) db).
Proof.
  intros Hin.
  assert (Hf : (length (List.filter
              (fun like => String.eqb (like_user like) caller) (likes post)) =? 0)%nat = false).
  { apply not_true_is_false. intros H. now apply liked_length_zero in H. }
  destruct (indexOf_from_present like_user 0 caller (likes post) Hin)
    as (before & like & after & Hl & Hu & Hb & Hi).
  exists before, like, after. repeat split; auto.
  unfold unlike_post. unfold_handler. rewrite Hid. hsimpl. rewrite Hpost. hsimpl.
  rewrite Hf. unfold Js.indexOf. rewrite Hi, Hl, Z.add_0_l. hsimpl.
  rewrite splice_one_at. reflexivity.
Qed.
End LikeFacts.

(** ** At most one like per user *)

Lemma likes_unique_insert db id p :
  likes_unique db -> NoDup (map like_user (likes p)) ->
  likes_unique (set_posts (insert id p) db).
Proof.
  intros Hdb Hp id' p'. cbn [set_posts posts].
  destruct (decide (id = id')) as [->|Hne].
  - rewrite lookup_insert_eq. now intros [= <-].
  - rewrite lookup_insert_ne by exact Hne. apply Hdb.
Qed.

Lemma likes_unique_delete db id :
  likes_unique db -> likes_unique (set_posts (delete id) db).
Proof.
  intros Hdb id' p'. cbn [set_posts posts]. intros Hl.
  apply lookup_delete_Some in Hl as [_ Hl]. now apply (Hdb id').
Qed.

Lemma likes_unique_filter db (P : string * Post -> Prop) `{!forall kv, Decision (P kv)} :
  likes_unique db -> likes_unique (set_posts (filter P) db).
Proof.
  intros Hdb id' p'. cbn [set_posts posts]. intros Hl.
  apply map_lookup_filter_Some in Hl as [Hl _]. now apply (Hdb id').
Qed.

Lemma likes_unique_set_profiles db f :
  likes_unique db -> likes_unique (set_profiles f db).
Proof. intros Hdb. exact Hdb. Qed.

Lemma likes_unique_set_users db f :
  likes_unique db -> likes_unique (set_users f db).
Proof. intros Hdb. exact Hdb. Qed.

Lemma likes_unique_unshift caller (ls : list Like) :
  NoDup (map like_user ls) ->
  (0 <? length (List.filter (fun like => String.eqb (like_user like) caller) ls))%nat = false ->
  NoDup (map like_user (Js.unshift {| like_user := caller |} ls)).
Proof.
  intros Hnd Hf. unfold Js.unshift. cbn [map like_user].
  apply NoDup_cons_2; [|exact Hnd].
  rewrite list_elem_of_In. intros Hin.
  apply liked_length_pos in Hin. congruence.
Qed.

Lemma likes_unique_splice start deleteCount (ls : list Like) :
  NoDup (map like_user ls) ->
  NoDup (map like_user (Js.splice start deleteCount ls)).
Proof.
  intros Hnd. refine (sublist_NoDup _ _ Hnd _).
  apply (fmap_sublist like_user), splice_sublist.
Qed.

(** Case analysis on the next test a handler makes. *)
Ltac handler_case :=
  match goal with
  | |- context [match ?x with _ => _ end] =>
      lazymatch x with
      | context [match _ with _ => _ end] => fail
      | _ => destruct x eqn:?
      end
  end; hsimpl.

Ltac likes_unique_step :=
  first
    [ assumption
    | apply likes_unique_set_users
    | apply likes_unique_set_profiles
    | apply likes_unique_delete
    | apply likes_unique_filter
    | apply likes_unique_insert ].

(** All the paths of one handler, each closed by the store lemmas. *)
Ltac serve_case h :=
  unfold h; unfold_handler; repeat handler_case; cbn [snd];
  repeat likes_unique_step.

Section Invariant.
Variable valid_oid : string -> bool.
Variable normalize : string -> option string.

Lemma read_only_ret {A} (a : A) : read_only (ret a).
Proof. intros db. reflexivity. Qed.

Lemma read_only_throw {A} e : read_only (@throw A e).
Proof. intros db. reflexivity. Qed.

Lemma read_only_bind {A B} (m : M A) (k : A -> M B) :
  read_only m -> (forall a, read_only (k a)) -> read_only (bind m k).
Proof.
  intros Hm Hk db. unfold bind. specialize (Hm db).
  destruct (m db) as [[a|e] db']; cbn [snd] in *; subst db'.
  - apply Hk.
  - reflexivity.
Qed.

Lemma read_only_normalize_value v : read_only (normalize_value normalize v).
Proof.
  destruct v as [|s|l]; cbn [normalize_value];
    try apply read_only_throw.
  destruct (normalize s); [apply read_only_ret|apply read_only_throw].
Qed.

Lemma read_only_website_field v : read_only (website_field normalize v).
Proof.
  destruct v as [|s|l]; cbn [website_field].
  - apply read_only_ret.
  - destruct (String.eqb s EmptyString);
      [apply read_only_ret|apply read_only_normalize_value].
  - apply read_only_normalize_value.
Qed.

Lemma read_only_skills_field v : read_only (skills_field v).
Proof.
  destruct v; cbn [skills_field];
    [apply read_only_throw|apply read_only_ret|apply read_only_ret].
Qed.

Lemma read_only_social_link v : read_only (social_link normalize v).
Proof.
  destruct v as [|s|l]; cbn [social_link].
  - apply read_only_ret.
  - destruct (String.eqb s EmptyString); [apply read_only_ret|].
    apply read_only_bind; [apply read_only_normalize_value|].
    intros url. apply read_only_ret.
  - destruct l; [apply read_only_ret|].
    apply read_only_bind; [apply read_only_normalize_value|].
    intros url. apply read_only_ret.
Qed.

Lemma build_profileFields_db caller b db :
  snd (build_profileFields normalize caller b db) = db.
Proof.
  revert db. change (read_only (build_profileFields normalize caller b)).
  unfold build_profileFields.
  repeat (apply read_only_bind;
          [first [apply read_only_website_field
                 |apply read_only_skills_field
                 |apply read_only_social_link]|intros ?]).
  apply read_only_ret.
Qed.

Lemma serve_likes_unique r db :
  likes_unique db -> likes_unique (serve valid_oid normalize r db).
Proof.
  intros Hdb. unfold serve.
  destruct r; cbn [handler].
  - serve_case create_post. cbn. constructor.
  - serve_case get_post.
  - serve_case delete_post.
  - serve_case like_post.
    cbn [with_likes likes]. apply likes_unique_unshift; eauto.
  - serve_case unlike_post.
    cbn [with_likes likes]. apply likes_unique_splice; eauto.
  - serve_case add_comment. cbn [with_comments likes]. eauto.
  - serve_case delete_comment. cbn [with_comments likes]. eauto.
  - serve_case get_me.
  - unfold upsert_profile.
    destruct (negb _); [exact Hdb|].
    unfold run, bind at 1.
    pose proof (build_profileFields_db caller b db) as Hb.
    destruct (build_profileFields normalize caller b db) as [[pf|e] db'];
      cbn [snd] in Hb; subst db'; [|exact Hdb].
    unfold_handler. repeat handler_case; cbn [snd]; repeat likes_unique_step.
  - serve_case get_profile_by_user.
  - serve_case delete_account.
  - serve_case add_experience.
  - serve_case remove_experience.
  - serve_case add_education.
  - serve_case remove_education.
Qed.

Lemma reachable_likes_unique db :
  reachable valid_oid normalize db -> likes_unique db.
Proof.
  induction 1 as [db Hempty|db us _ IH|db r _ IH].
  - intros id p. rewrite Hempty, lookup_empty. discriminate.
  - exact IH.
  - now apply serve_likes_unique.
Qed.
End Invariant.

Example like_twice :
  let db1 := snd (run (like_post Examples.hex24 Examples.bob Examples.post1)
                      (Examples.db_posts [(Examples.post1, Examples.a_post [] [])])) in
  fst (run (like_post Examples.hex24 Examples.bob Examples.post1) db1)
  = Sent {| status := 400%nat;
            res_body := JsonObject [("msg", VString "Post already liked")] |}
  /\ posts db1 !! Examples.post1
     = Some (Examples.a_post [ {| like_user := Examples.bob |} ] []).
Proof. vm_compute. split; reflexivity. Qed.

(** ** Deleting a post, reading a profile *)

Section DeletePost.
Variable valid_oid : string -> bool.
Variables (db : Db) (caller id : string).

Lemma delete_post_malformed :
  valid_oid id = false ->
  run (delete_post valid_oid caller id) db =
    (Sent {| status := 404%nat;
             res_body := JsonObject [("msg", VString "Post not found")] |}, db).
Proof.
  intros Hid. unfold delete_post. unfold_handler. rewrite Hid. reflexivity.
Qed.

Hypothesis Hid : valid_oid id = true.

Lemma delete_post_absent :
  posts db !! id = None ->
  run (delete_post valid_oid caller id) db =
    (Sent {| status := 404%nat;
             res_body := JsonObject [("msg", VString "Post not found")] |}, db).
Proof.
  intros Hp. unfold delete_post. unfold_handler. rewrite Hid. hsimpl.
  rewrite Hp. reflexivity.
Qed.

Lemma delete_post_not_author post :
  posts db !! id = Some post -> post_user post <> caller ->
  run (delete_post valid_oid caller id) db =
    (Sent {| status := 401%nat;
             res_body := JsonObject [("msg", VString "User is not authorized")] |}, db).
Proof.
  intros Hp Hu. apply String.eqb_neq in Hu.
  unfold delete_post. unfold_handler. rewrite Hid. hsimpl.
  rewrite Hp. hsimpl. rewrite Hu. reflexivity.
Qed.

Lemma delete_post_author post :
  posts db !! id = Some post -> post_user post = caller ->
  run (delete_post valid_oid caller id) db =
    (Sent {| status := 200%nat;
             res_body := JsonObject [("msg", VString "Post removed")] |},
     set_posts (delete id) db).
Proof.
  intros Hp Hu. apply String.eqb_eq in Hu.
  unfold delete_post. unfold_handler. rewrite Hid. hsimpl.
  rewrite Hp. hsimpl. rewrite Hu. reflexivity.
Qed.
End DeletePost.

Section GetProfile.
Variable valid_oid : string -> bool.
Variables (db : Db) (user_id : string).

Lemma get_profile_malformed :
  valid_oid user_id = false ->
  run (get_profile_by_user valid_oid user_id) db =
    (Sent {| status := 400%nat;
             res_body := JsonObject [("msg", VString "Profile not found")] |}, db).
Proof.
  intros Hid. unfold get_profile_by_user. unfold_handler. rewrite Hid.
  reflexivity.
Qed.

Lemma get_profile_absent :
  valid_oid user_id = true -> profiles db !! user_id = None ->
  run (get_profile_by_user valid_oid user_id) db =
    (Sent {| status := 400%nat;
             res_body := JsonObject [("msg", VString "Profile not found")] |}, db).
Proof.
  intros Hid Hp. unfold get_profile_by_user. unfold_handler. rewrite Hid.
  hsimpl. rewrite Hp. reflexivity.
Qed.

Lemma get_profile_found profile :
  valid_oid user_id = true -> profiles db !! user_id = Some profile ->
  run (get_profile_by_user valid_oid user_id) db =
    (Sent {| status := 200%nat; res_body := Json (VProfile profile) |}, db).
Proof.
  intros Hid Hp. unfold get_profile_by_user. unfold_handler. rewrite Hid.
  hsimpl. rewrite Hp. reflexivity.
Qed.
End GetProfile.

(** ** Comments *)

Lemma find_comment_none cid (cs : list Comment) :
  List.find (fun comment => String.eqb (comment_id comment) cid) cs = None
  <-> ~ In cid (map comment_id cs).
Proof.
  induction cs as [|c cs IH]; cbn [List.find map In]; [tauto|].
  destruct (String.eqb_spec (comment_id c) cid) as [Heq|Hne].
  - split; [discriminate|]. intros H. exfalso. apply H. now left.
  - rewrite IH. tauto.
Qed.

Section DeleteComment.
Variable valid_oid : string -> bool.
Variables (db : Db) (caller id cid : string) (post : Post).
Hypothesis Hid : valid_oid id = true.
Hypothesis Hpost : posts db !! id = Some post.

Lemma delete_comment_absent :
  ~ In cid (map comment_id (comments post)) ->
  run (delete_comment valid_oid caller id cid) db =
    (Sent {| status := 404%nat;
             res_body := JsonObject [("msg", VString "Comment does not exist")] |}, db).
Proof.
  intros Hn. apply find_comment_none in Hn.
  unfold delete_comment. unfold_handler. rewrite Hid. hsimpl.
  rewrite Hpost. hsimpl. rewrite Hn. reflexivity.
Qed.

Lemma delete_comment_not_author comment :
  List.find (fun comment => String.eqb (comment_id comment) cid) (comments post)
    = Some comment ->
  comment_user comment <> caller ->
  run (delete_comment valid_oid caller id cid) db =
    (Sent {| status := 401%nat;
             res_body := JsonObject [("msg", VString "User is not authorized")] |}, db).
Proof.
  intros Hf Hu. apply String.eqb_neq in Hu.
  unfold delete_comment. unfold_handler. rewrite Hid. hsimpl.
  rewrite Hpost. hsimpl. rewrite Hf, Hu. reflexivity.
Qed.

(** When the caller wrote the comment named in the request, the entry
    removed is the first comment of the caller in the list, whatever its
    identifier. *)
Lemma delete_comment_author comment :
  List.find (fun comment => String.eqb (comment_id comment) cid) (comments post)
    = Some comment ->
  comment_user comment = caller ->
  exists before first after,
    comments post = before ++ first :: after /\
    comment_user first = caller /\
    ~ In caller (map comment_user before) /\
    run (delete_comment valid_oid caller id cid) db =
      (Sent {| status := 200%nat; res_body := Json (VComments (before ++ after)) |},
       set_posts (insert id (with_comments (before ++ after) post)) db).
Proof.
  intros Hf Hu.
  assert (Hin : In caller (map comment_user (comments post))).
  { apply find_some in Hf as [Hin _]. rewrite <- Hu. now apply in_map. }
  destruct (indexOf_from_present comment_user 0 caller (comments post) Hin)
    as (before & first & after & Hl & Hfu & Hb & Hi).
  exists before, first, after. repeat split; auto.
  apply String.eqb_eq in Hu.
  unfold delete_comment. unfold_handler. rewrite Hid. hsimpl.
  rewrite Hpost. hsimpl. rewrite Hf, Hu. hsimpl.
  unfold Js.indexOf. rewrite Hi, Hl, Z.add_0_l, splice_one_at. reflexivity.
Qed.
End DeleteComment.

(** ** Experience and education entries *)

Section RemoveEntry.
Variable valid_oid : string -> bool.
Variables (db : Db) (caller entry_id : string) (profile : Profile).
Hypothesis Hcaller : valid_oid caller = true.
Hypothesis Hprofile : profiles db !! caller = Some profile.

(** An identifier that matches no entry makes [indexOf] answer [-1], and
    [splice(-1, 1)] removes the last entry of the list. *)
Lemma remove_experience_unmatched :
  ~ In entry_id (map exp_id (experience profile)) ->
  run (remove_experience valid_oid caller entry_id) db =
    let profile' := with_experience (removelast (experience profile)) profile in
    (Sent {| status := 200%nat; res_body := Json (VProfile profile') |},
     set_profiles (insert caller profile') db).
Proof.
  intros Hn.
  unfold remove_experience. unfold_handler. rewrite Hcaller. hsimpl.
  rewrite Hprofile. hsimpl.
  unfold Js.indexOf. rewrite (indexOf_from_absent exp_id) by exact Hn.
  rewrite splice_minus_one. reflexivity.
Qed.

Lemma remove_education_unmatched :
  ~ In entry_id (map edu_id (education profile)) ->
  run (remove_education valid_oid caller entry_id) db =
    let profile' := with_education (removelast (education profile)) profile in
    (Sent {| status := 200%nat; res_body := Json (VProfile profile') |},
     set_profiles (insert caller profile') db).
Proof.
  intros Hn.
  unfold remove_education. unfold_handler. rewrite Hcaller. hsimpl.
  rewrite Hprofile. hsimpl.
  unfold Js.indexOf. rewrite (indexOf_from_absent edu_id) by exact Hn.
  rewrite splice_minus_one. reflexivity.
Qed.

Lemma remove_experience_matched :
  In entry_id (map exp_id (experience profile)) ->
  exists before entry after,
    experience profile = before ++ entry :: after /\
    exp_id entry = entry_id /\
    ~ In entry_id (map exp_id before) /\
    run (remove_experience valid_oid caller entry_id) db =
      let profile' := with_experience (before ++ after) profile in
      (Sent {| status := 200%nat; res_body := Json (VProfile profile') |},
       set_profiles (insert caller profile') db).
Proof.
  intros Hin.
  destruct (indexOf_from_present exp_id 0 entry_id (experience profile) Hin)
    as (before & entry & after & Hl & He & Hb & Hi).
  exists before, entry, after. repeat split; auto.
  unfold remove_experience. unfold_handler. rewrite Hcaller. hsimpl.
  rewrite Hprofile. hsimpl.
  unfold Js.indexOf. rewrite Hi, Hl, Z.add_0_l, splice_one_at. reflexivity.
Qed.

Lemma remove_education_matched :
  In entry_id (map edu_id (education profile)) ->
  exists before entry after,
    education profile = before ++ entry :: after /\
    edu_id entry = entry_id /\
    ~ In entry_id (map edu_id before) /\
    run (remove_education valid_oid caller entry_id) db =
      let profile' := with_education (before ++ after) profile in
      (Sent {| status := 200%nat; res_body := Json (VProfile profile') |},
       set_profiles (insert caller profile') db).
Proof.
  intros Hin.
  destruct (indexOf_from_present edu_id 0 entry_id (education profile) Hin)
    as (before & entry & after & Hl & He & Hb & Hi).
  exists before, entry, after. repeat split; auto.
  unfold remove_education. unfold_handler. rewrite Hcaller. hsimpl.
  rewrite Hprofile. hsimpl.
  unfold Js.indexOf. rewrite Hi, Hl, Z.add_0_l, splice_one_at. reflexivity.
Qed.
End RemoveEntry.

(** An unmatched identifier leaves the list as it is only when the list is
    empty. *)
Lemma removelast_fixpoint {A} (l : list A) : removelast l = l <-> l = [].
Proof.
  split; [|now intros ->].
  intros H. destruct (decide (l = [])) as [|Hne]; [assumption|].
  destruct (exists_last Hne) as (l' & y & ->).
  rewrite removelast_last in H.
  apply (f_equal (@length A)) in H. rewrite length_app in H. cbn in H. lia.
Qed.

(** ** Validation answers *)

Lemma check_not_isEmpty_required name msg b :
  field b name = BUndefined \/ field b name = BString EmptyString ->
  check_not_isEmpty name msg b =
    [ {| ve_msg := msg; ve_param := name; ve_value := field b name |} ].
Proof.
  unfold check_not_isEmpty. intros [H|H]; rewrite H; reflexivity.
Qed.

Lemma check_not_isEmpty_filled name msg b s :
  field b name = BString s -> s <> EmptyString ->
  check_not_isEmpty name msg b = [].
Proof.
  unfold check_not_isEmpty. intros H Hs. rewrite H. cbn.
  apply String.eqb_neq in Hs. unfold isEmpty. now rewrite Hs.
Qed.

(** A required field that is missing or empty gives an error that names
    the field and carries the message of its check. *)
Lemma validationResult_required checks b name msg :
  In (name, msg) checks ->
  field b name = BUndefined \/ field b name = BString EmptyString ->
  In {| ve_msg := msg; ve_param := name; ve_value := field b name |}
     (validationResult checks b).
Proof.
  intros Hin Hf. unfold validationResult. apply in_flat_map.
  exists (name, msg). split; [exact Hin|]. cbn [fst snd].
  rewrite check_not_isEmpty_required by exact Hf. now left.
Qed.

Lemma errors_isEmpty_false errors :
  errors <> [] -> negb (errors_isEmpty errors) = true.
Proof. destruct errors; [congruence|reflexivity]. Qed.

Section Validation.
Variable valid_oid : string -> bool.
Variable normalize : string -> option string.
Variables (db : Db) (caller id new_id : string) (b : gmap string bval).

Lemma create_post_invalid :
  let errors := validationResult [("text", "Text is required")] b in
  errors <> [] ->
  run (create_post valid_oid caller b new_id) db =
    (Sent {| status := 400%nat;
             res_body := JsonObject [("errors", VErrors errors)] |}, db).
Proof.
  intros errors He. unfold create_post. fold errors.
  rewrite (errors_isEmpty_false _ He). reflexivity.
Qed.

Lemma add_comment_invalid :
  let errors := validationResult [("text", "Text is required")] b in
  errors <> [] ->
  run (add_comment valid_oid caller id b new_id) db =
    (Sent {| status := 400%nat;
             res_body := JsonObject [("errors", VErrors errors)] |}, db).
Proof.
  intros errors He. unfold add_comment. fold errors.
  rewrite (errors_isEmpty_false _ He). reflexivity.
Qed.

Lemma upsert_profile_invalid :
  let errors := validationResult [("status", "Status is required");
                                  ("skills", "Skills are required")] b in
  errors <> [] ->
  run (upsert_profile valid_oid normalize caller b) db =
    (Sent {| status := 400%nat;
             res_body := JsonObject [("errors", VErrors errors)] |}, db).
Proof.
  intros errors He. unfold upsert_profile. fold errors.
  rewrite (errors_isEmpty_false _ He). reflexivity.
Qed.

(** The two handlers of the profile router that answer
    [{ errors: errors.array }] send an object without any property. *)
Lemma add_experience_invalid :
  validationResult [("title", "Title is required");
                    ("company", "Company is required");
                    ("from", "From date is required")] b <> [] ->
  run (add_experience valid_oid caller b new_id) db =
    (Sent {| status := 400%nat; res_body := JsonObject [] |}, db).
Proof.
  intros He. unfold add_experience.
  rewrite (errors_isEmpty_false _ He). reflexivity.
Qed.

Lemma add_education_invalid :
  validationResult [("school", "School is required");
                    ("degree", "Degree is required");
                    ("fieldofstudy", "Field of study is required");
                    ("from", "from date is required")] b <> [] ->
  run (add_education valid_oid caller b new_id) db =
    (Sent {| status := 400%nat; res_body := JsonObject [] |}, db).
Proof.
  intros He. unfold add_education.
  rewrite (errors_isEmpty_false _ He). reflexivity.
Qed.
End Validation.

(** ** Exceptions *)

Section Exceptions.
Variable valid_oid : string -> bool.
Variables (db : Db) (caller id : string).

(** An exception in the body of the like handler, here the post that is
    not there, reaches a catch block that throws in its turn. *)
Lemma like_post_no_post :
  valid_oid id = false \/ posts db !! id = None ->
  run (like_post valid_oid caller id) db = (Unhandled (ReferenceError "err"), db).
Proof.
  unfold like_post. unfold_handler.
  destruct (valid_oid id); intros [H|H]; try discriminate; hsimpl;
    try reflexivity.
  rewrite H. reflexivity.
Qed.

Lemma unlike_post_no_post :
  valid_oid id = false \/ posts db !! id = None ->
  run (unlike_post valid_oid caller id) db = (Unhandled (ReferenceError "err"), db).
Proof.
  unfold unlike_post. unfold_handler.
  destruct (valid_oid id); intros [H|H]; try discriminate; hsimpl;
    try reflexivity.
  rewrite H. reflexivity.
Qed.

(** The like and unlike handlers never answer 500. *)
Lemma like_post_never_500 r db' :
  run (like_post valid_oid caller id) db = (Sent r, db') -> status r <> 500%nat.
Proof.
  unfold like_post. unfold_handler.
  repeat handler_case; intros [= <- _]; discriminate.
Qed.

Lemma unlike_post_never_500 r db' :
  run (unlike_post valid_oid caller id) db = (Sent r, db') -> status r <> 500%nat.
Proof.
  unfold unlike_post. unfold_handler.
  repeat handler_case; intros [= <- _]; discriminate.
Qed.

(** The comment handlers catch the same exception and answer 500. *)
Lemma delete_comment_no_post cid :
  valid_oid id = false \/ posts db !! id = None ->
  run (delete_comment valid_oid caller id cid) db =
    (Sent {| status := 500%nat; res_body := Text "Server error" |}, db).
Proof.
  unfold delete_comment. unfold_handler.
  destruct (valid_oid id); intros [H|H]; try discriminate; hsimpl;
    try reflexivity.
  rewrite H. reflexivity.
Qed.
End Exceptions.

(** ** Profile upsert *)

Section Upsert.
Variable valid_oid : string -> bool.
Variable normalize : string -> option string.
Variables (db : Db) (caller : string) (b : gmap string bval).

Lemma bind_normal {A B} (m : M A) (k : A -> M B) d a :
  m d = (Normal a, d) -> bind m k d = k a d.
Proof. intros H. unfold bind. now rewrite H. Qed.

Lemma website_field_normalisable input d :
  link_normalisable normalize input ->
  exists stored, website_field normalize input d = (Normal stored, d) /\
                 website_stored normalize input stored.
Proof.
  intros [->|[->|(s & url & -> & Hs & Hn)]].
  - exists EmptyString. split; [reflexivity|]. split; [reflexivity|discriminate].
  - exists EmptyString. split; [reflexivity|]. split; [reflexivity|].
    intros s [= <-] Hs. congruence.
  - exists url. split.
    + cbn [website_field normalize_value].
      apply String.eqb_neq in Hs. rewrite Hs, Hn. reflexivity.
    + split; [intros [?|[= ->]]; congruence|].
      intros s' [= <-] _. auto.
Qed.

Lemma social_link_normalisable input d :
  link_normalisable normalize input ->
  exists stored, social_link normalize input d = (Normal stored, d) /\
                 link_stored normalize input stored.
Proof.
  intros [->|[->|(s & url & -> & Hs & Hn)]].
  - exists BUndefined. split; [reflexivity|]. split; [reflexivity|discriminate].
  - exists (BString EmptyString). split; [reflexivity|]. split; [reflexivity|].
    intros s [= <-] Hs. congruence.
  - exists (BString url). split.
    + cbn [social_link normalize_value].
      apply String.eqb_neq in Hs. rewrite Hs. unfold bind. rewrite Hn. reflexivity.
    + split; [intros [?|[= ->]]; congruence|].
      intros s' [= <-] _. eauto.
Qed.

(** Validation lets through a [skills] field that is a string or an
    array, never an absent one. *)
Lemma validated_not_undefined checks name msg :
  validationResult checks b = [] -> In (name, msg) checks ->
  field b name <> BUndefined /\ field b name <> BString EmptyString.
Proof.
  intros Hv Hin.
  split; intros Hf;
    (eapply validationResult_required in Hin; [|eauto]);
    rewrite Hv in Hin; destruct Hin.
Qed.

Lemma skills_field_validated d :
  field b "skills" <> BUndefined ->
  exists skills, skills_field (field b "skills") d = (Normal skills, d) /\
    (forall s, field b "skills" = BString s ->
       skills = map (fun skill => (" " ++ Js.trim skill)%string) (Js.split_comma s)) /\
    (forall l, field b "skills" = BArray l -> skills = l).
Proof.
  intros Hu. destruct (field b "skills") as [|s|l]; [congruence| |].
  - eexists. split; [reflexivity|]. split; [now intros ? [= <-]|discriminate].
  - eexists. split; [reflexivity|]. split; [discriminate|now intros ? [= <-]].
Qed.
End Upsert.

Section UpsertRun.
Variable valid_oid : string -> bool.
Variable normalize : string -> option string.
Variables (db : Db) (caller : string) (b : gmap string bval).
Hypothesis Hcaller : valid_oid caller = true.
Hypothesis Hvalid :
  validationResult [("status", "Status is required");
                    ("skills", "Skills are required")] b = [].
Hypothesis Hlinks : forall k, In k links -> link_normalisable normalize (field b k).

Lemma upsert_profile_stores :
  exists profile,
    run (upsert_profile valid_oid normalize caller b) db =
      (Sent {| status := 200%nat; res_body := Json (VProfile profile) |},
       set_profiles (insert caller profile) db) /\
    (forall s, field b "skills" = BString s ->
       pf_skills (fields profile) =
         map (fun skill => (" " ++ Js.trim skill)%string) (Js.split_comma s)) /\
    (forall l, field b "skills" = BArray l -> pf_skills (fields profile) = l) /\
    website_stored normalize (field b "website") (pf_website (fields profile)) /\
    link_stored normalize (field b "youtube") (youtube (pf_social (fields profile))) /\
    link_stored normalize (field b "twitter") (twitter (pf_social (fields profile))) /\
    link_stored normalize (field b "instagram") (instagram (pf_social (fields profile))) /\
    link_stored normalize (field b "linkedin") (linkedin (pf_social (fields profile))) /\
    link_stored normalize (field b "facebook") (facebook (pf_social (fields profile))).
Proof.
  assert (Hsk : field b "skills" <> BUndefined).
  { eapply validated_not_undefined; [exact Hvalid|]. right. left. reflexivity. }
  destruct (website_field_normalisable normalize (field b "website") db)
    as (w & Hw & Hwp); [apply Hlinks; cbn; tauto|].
  destruct (skills_field_validated b db Hsk) as (sk & Hs & Hss & Hsa).
  destruct (social_link_normalisable normalize (field b "youtube") db)
    as (yt & Hyt & Hytp); [apply Hlinks; cbn; tauto|].
  destruct (social_link_normalisable normalize (field b "twitter") db)
    as (tw & Htw & Htwp); [apply Hlinks; cbn; tauto|].
  destruct (social_link_normalisable normalize (field b "instagram") db)
    as (ig & Hig & Higp); [apply Hlinks; cbn; tauto|].
  destruct (social_link_normalisable normalize (field b "linkedin") db)
    as (li & Hli & Hlip); [apply Hlinks; cbn; tauto|].
  destruct (social_link_normalisable normalize (field b "facebook") db)
    as (fb & Hfb & Hfbp); [apply Hlinks; cbn; tauto|].
  eexists. split.
  - unfold upsert_profile. rewrite Hvalid. cbn [errors_isEmpty negb].
    unfold run. rewrite (bind_normal (build_profileFields normalize caller b) _ db
      {| pf_user := caller;
         pf_company := field b "company";
         pf_location := field b "location";
         pf_website := w;
         pf_bio := field b "bio";
         pf_skills := sk;
         pf_status := field b "status";
         pf_githubusername := field b "githubusername";
         pf_social := {| youtube := yt; twitter := tw; instagram := ig;
                         linkedin := li; facebook := fb |} |}).
    + unfold_handler. rewrite Hcaller. hsimpl. reflexivity.
    + unfold build_profileFields.
      rewrite (bind_normal _ _ db w Hw), (bind_normal _ _ db sk Hs),
        (bind_normal _ _ db yt Hyt), (bind_normal _ _ db tw Htw),
        (bind_normal _ _ db ig Hig), (bind_normal _ _ db li Hli),
        (bind_normal _ _ db fb Hfb).
      reflexivity.
  - destruct (profiles db !! caller);
      cbn [fields pf_skills pf_website pf_social youtube twitter
           instagram linkedin facebook];
      repeat (split; [assumption|]); assumption.
Qed.
End UpsertRun.

(** ** Splitting and trimming *)

Lemma split_comma_nonempty s : Js.split_comma s <> [].
Proof.
  destruct s as [|c r]; cbn [Js.split_comma]; [discriminate|].
  destruct (Ascii.eqb c ","); [discriminate|].
  destruct (Js.split_comma r); discriminate.
Qed.

(** Joining the segments with commas gives the string back. *)
Lemma split_comma_concat s : String.concat "," (Js.split_comma s) = s.
Proof.
  induction s as [|c r IH]; [reflexivity|].
  cbn [Js.split_comma].
  pose proof (split_comma_nonempty r) as Hne.
  destruct (Ascii.eqb_spec c ",") as [->|Hc].
  - destruct (Js.split_comma r) as [|seg segs] eqn:E; [congruence|].
    cbn [String.concat]. cbn [String.concat] in IH. rewrite IH. reflexivity.
  - destruct (Js.split_comma r) as [|seg segs] eqn:E; [congruence|].
    destruct segs; cbn [String.concat] in *; rewrite <- IH; reflexivity.
Qed.

(** No segment holds a comma. *)
Lemma split_comma_no_comma s : Forall (fun seg => ~ has_comma seg) (Js.split_comma s).
Proof.
  induction s as [|c r IH]; cbn [Js.split_comma].
  - constructor; [|constructor]. intros [].
  - destruct (Ascii.eqb_spec c ",") as [->|Hc].
    + constructor; [intros []|exact IH].
    + destruct (Js.split_comma r) as [|seg segs].
      * constructor; [|constructor]. intros [H|[]]. congruence.
      * inversion IH as [|? ? Hseg Hsegs]; subst.
        constructor; [|exact Hsegs].
        intros [H|H]; [congruence|now apply Hseg].
Qed.

Lemma trimStart_spec s :
  exists a, s = (a ++ Js.trimStart s)%string /\ all_white a.
Proof.
  induction s as [|c r (a & Ha & Hw)]; [now exists EmptyString|].
  cbn [Js.trimStart]. destruct (Js.is_white_space c) eqn:Hc.
  - exists (String c a). split; [now rewrite Ha at 1|].
    unfold all_white in *. cbn. now rewrite Hc, Hw.
  - now exists EmptyString.
Qed.

Lemma trimStart_head s c r :
  Js.trimStart s = String c r -> Js.is_white_space c = false.
Proof.
  induction s as [|c' r' IH]; [discriminate|].
  cbn [Js.trimStart]. destruct (Js.is_white_space c') eqn:Hc; [exact IH|].
  now intros [= <- _].
Qed.

Lemma trimEnd_spec s :
  exists z, s = (Js.trimEnd s ++ z)%string /\ all_white z.
Proof.
  induction s as [|c r (z & Hz & Hw)]; [now exists EmptyString|].
  cbn [Js.trimEnd]. destruct (Js.trimEnd r) as [|c' r'] eqn:E.
  - destruct (Js.is_white_space c) eqn:Hc.
    + exists (String c z). split; [now rewrite Hz at 1|].
      unfold all_white in *. cbn. now rewrite Hc, Hw.
    + exists z. split; [now rewrite Hz at 1|exact Hw].
  - exists z. split; [now rewrite Hz at 1|exact Hw].
Qed.

Lemma trimEnd_last s t c :
  Js.trimEnd s = (t ++ String c EmptyString)%string -> Js.is_white_space c = false.
Proof.
  revert t. induction s as [|c' r IH]; intros t.
  - destruct t; discriminate.
  - cbn [Js.trimEnd]. destruct (Js.trimEnd r) as [|c'' r'] eqn:E.
    + destruct (Js.is_white_space c') eqn:Hc.
      * destruct t; discriminate.
      * destruct t as [|ct t]; cbn [String.append].
        -- now intros [= <-].
        -- intros [= _ H]. destruct t; discriminate.
    + destruct t as [|ct t]; cbn [String.append].
      * discriminate.
      * intros [= _ H]. now apply (IH t).
Qed.

Lemma trimEnd_head c r :
  Js.is_white_space c = false -> exists r', Js.trimEnd (String c r) = String c r'.
Proof.
  intros Hc. cbn [Js.trimEnd]. destruct (Js.trimEnd r).
  - rewrite Hc. eauto.
  - eauto.
Qed.

(** [trim] takes white space off both ends, and nothing else: what is
    left neither starts nor ends with white space. *)
Lemma trim_spec s :
  exists a z,
    s = (a ++ Js.trim s ++ z)%string /\ all_white a /\ all_white z /\
    (forall c r, Js.trim s = String c r -> Js.is_white_space c = false) /\
    (forall t c, Js.trim s = (t ++ String c EmptyString)%string ->
                 Js.is_white_space c = false).
Proof.
  destruct (trimStart_spec s) as (a & Ha & Hwa).
  destruct (trimEnd_spec (Js.trimStart s)) as (z & Hz & Hwz).
  exists a, z. unfold Js.trim. repeat split; auto.
  - now rewrite <- Hz.
  - intros c r Hc. destruct (Js.trimStart s) as [|c' r'] eqn:E; [discriminate|].
    pose proof (trimStart_head _ _ _ E) as Hc'.
    destruct (trimEnd_head c' r' Hc') as (r'' & Hr). rewrite Hr in Hc.
    now injection Hc as <- _.
  - intros t c. apply trimEnd_last.
Qed.

Example skills_js_node :
  map (fun skill => (" " ++ Js.trim skill)%string) (Js.split_comma "js, node")
  = [" js"; " node"].
Proof. reflexivity. Qed.

(** * The claims *)

(** C1, at a failing input: removing an experience (an education) entry
    under an identifier that matches no entry of the list does not leave
    the list unchanged.  The handler persists the profile and answers 200,
    but with the last entry of the list removed. *)
Theorem remove_unmatched_entry_drops_last :
  let profile :=
    Examples.a_profile
      [Examples.an_experience Examples.exp1; Examples.an_experience Examples.exp2]
      [Examples.an_education Examples.edu1] in
  let without_exp :=
    Examples.a_profile [Examples.an_experience Examples.exp1]
                       [Examples.an_education Examples.edu1] in
  let without_edu :=
    Examples.a_profile
      [Examples.an_experience Examples.exp1; Examples.an_experience Examples.exp2]
      [] in
  run (remove_experience Examples.hex24 Examples.alice Examples.exp3)
      (Examples.db_profile profile)
  = (Sent {| status := 200%nat; res_body := Json (VProfile without_exp) |},
     Examples.db_profile without_exp)
  /\
  run (remove_education Examples.hex24 Examples.alice Examples.edu2)
      (Examples.db_profile profile)
  = (Sent {| status := 200%nat; res_body := Json (VProfile without_edu) |},
     Examples.db_profile without_edu).
Proof. vm_compute. split; reflexivity. Qed.

(** C2, at a failing input: the author of two comments deletes the second
    one by its identifier; the handler removes the author's first comment
    and keeps the one named in the request. *)
Theorem delete_comment_removes_first_of_author :
  let first := Examples.a_comment Examples.comment1 Examples.bob "first" in
  let second := Examples.a_comment Examples.comment2 Examples.bob "second" in
  let db := Examples.db_posts [(Examples.post1, Examples.a_post [] [first; second])] in
  run (delete_comment Examples.hex24 Examples.bob Examples.post1 Examples.comment2) db
  = (Sent {| status := 200%nat; res_body := Json (VComments [second]) |},
     Examples.db_posts [(Examples.post1, Examples.a_post [] [second])]).
Proof. vm_compute. reflexivity. Qed.

(** C3: in every store reached by serving requests, each user appears at
    most once among the likes of each post: the like handler refuses a
    caller who is already there, the unlike handler only takes an entry out,
    and no other handler adds a like. *)
Theorem likes_at_most_once_per_user
  (valid_oid : string -> bool) (normalize : string -> option string)
  (db : Db) (id : string) (post : Post) :
  reachable valid_oid normalize db ->
  posts db !! id = Some post ->
  NoDup (map like_user (likes post)).
Proof.
  intros Hreach Hpost.
  exact (reachable_likes_unique valid_oid normalize db Hreach id post Hpost).
Qed.

Lemma likes_at_most_once_per_user_witness :
  let db :=
    serve Examples.hex24 Examples.https_prefix
      (LikePost Examples.alice Examples.post1)
      (serve Examples.hex24 Examples.https_prefix
         (LikePost Examples.bob Examples.post1)
         (serve Examples.hex24 Examples.https_prefix
            (CreatePost Examples.alice {[ "text" := BString "hello" ]} Examples.post1)
            (Examples.db_posts []))) in
  let post :=
    Examples.a_post [Examples.like_of Examples.alice; Examples.like_of Examples.bob] [] in
  reachable Examples.hex24 Examples.https_prefix db /\
  posts db !! Examples.post1 = Some post /\
  NoDup (map like_user (likes post)).
Proof.
  intros db post.
  assert (Hreach : reachable Examples.hex24 Examples.https_prefix db).
  { do 3 apply reach_serve. apply reach_init. reflexivity. }
  assert (Hpost : posts db !! Examples.post1 = Some post).
  { vm_compute. reflexivity. }
  split; [exact Hreach|]. split; [exact Hpost|].
  exact (likes_at_most_once_per_user _ _ db Examples.post1 post Hreach Hpost).
Defined.

(** C4: a like request on a post the caller has already liked is answered
    400 with the message "Post already liked" and leaves the store, hence
    the likes of the post, as they are; otherwise the handler puts a like
    of the caller in front of the list, saves the post and answers with the
    new likes list. *)
Theorem like_post_spec
  (valid_oid : string -> bool) (db : Db) (caller id : string) (post : Post) :
  valid_oid id = true ->
  posts db !! id = Some post ->
  (In caller (map like_user (likes post)) ->
   run (like_post valid_oid caller id) db =
     (Sent {| status := 400%nat;
              res_body := JsonObject [("msg", VString "Post already liked")] |},
      db))
  /\
  (~ In caller (map like_user (likes post)) ->
   run (like_post valid_oid caller id) db =
     (Sent {| status := 200%nat;
              res_body := Json (VLikes ({| like_user := caller |} :: likes post)) |},
      set_posts
        (insert id (with_likes ({| like_user := caller |} :: likes post) post)) db)).
Proof.
  intros Hid Hpost. split.
  - now apply like_post_already_liked.
  - now apply like_post_fresh.
Qed.

Lemma like_post_spec_witness :
  let post := Examples.a_post [Examples.like_of Examples.bob] [] in
  let db := Examples.db_posts [(Examples.post1, post)] in
  Examples.hex24 Examples.post1 = true /\
  posts db !! Examples.post1 = Some post /\
  run (like_post Examples.hex24 Examples.bob Examples.post1) db =
    (Sent {| status := 400%nat;
             res_body := JsonObject [("msg", VString "Post already liked")] |},
     db) /\
  run (like_post Examples.hex24 Examples.alice Examples.post1) db =
    (Sent {| status := 200%nat;
             res_body := Json (VLikes [Examples.like_of Examples.alice;
                                       Examples.like_of Examples.bob]) |},
     set_posts
       (insert Examples.post1
          (with_likes [Examples.like_of Examples.alice; Examples.like_of Examples.bob]
                      post)) db).
Proof.
  intros post db.
  assert (Hid : Examples.hex24 Examples.post1 = true) by reflexivity.
  assert (Hpost : posts db !! Examples.post1 = Some post) by (vm_compute; reflexivity).
  split; [exact Hid|]. split; [exact Hpost|]. split.
  - apply (like_post_spec Examples.hex24 db Examples.bob Examples.post1 post Hid Hpost).
    left. reflexivity.
  - apply (like_post_spec Examples.hex24 db Examples.alice Examples.post1 post Hid Hpost).
    intros [H|[]]. discriminate H.
Defined.

(** C5: an unlike request on a post the caller has not liked is answered
    400 with the message "Post has not yet been liked"; otherwise the
    handler takes out of the list the entry of the caller (the first one
    that refers to the caller), saves the post and answers with the new
    likes list. *)
Theorem unlike_request_spec
  (valid_oid : string -> bool) (db : Db) (caller id : string) (post : Post) :
  valid_oid id = true ->
  posts db !! id = Some post ->
  (~ In caller (map like_user (likes post)) ->
   run (unlike_post valid_oid caller id) db =
     (Sent {| status := 400%nat;
              res_body := JsonObject [("msg", VString "Post has not yet been liked")] |},
      db))
  /\
  (In caller (map like_user (likes post)) ->
   exists before like after,
     likes post = before ++ like :: after /\
     like_user like = caller /\
     ~ In caller (map like_user before) /\
     run (unlike_post valid_oid caller id) db =
       (Sent {| status := 200%nat; res_body := Json (VLikes (before ++ after)) |},
        set_posts (insert id (with_likes (before ++ after) post)) db)).
Proof.
  intros Hid Hpost. split.
  - now apply unlike_post_not_liked.
  - now apply unlike_post_liked.
Qed.

Lemma unlike_request_spec_witness :
  let post :=
    Examples.a_post [Examples.like_of Examples.alice; Examples.like_of Examples.bob] [] in
  let db := Examples.db_posts [(Examples.post1, post)] in
  Examples.hex24 Examples.post1 = true /\
  posts db !! Examples.post1 = Some post /\
  run (unlike_post Examples.hex24 Examples.post2 Examples.post1) db =
    (Sent {| status := 400%nat;
             res_body := JsonObject [("msg", VString "Post has not yet been liked")] |},
     db) /\
  exists before like after,
    likes post = before ++ like :: after /\
    like_user like = Examples.bob /\
    ~ In Examples.bob (map like_user before) /\
    run (unlike_post Examples.hex24 Examples.bob Examples.post1) db =
      (Sent {| status := 200%nat; res_body := Json (VLikes (before ++ after)) |},
       set_posts (insert Examples.post1 (with_likes (before ++ after) post)) db).
Proof.
  intros post db.
  assert (Hid : Examples.hex24 Examples.post1 = true) by reflexivity.
  assert (Hpost : posts db !! Examples.post1 = Some post) by (vm_compute; reflexivity).
  split; [exact Hid|]. split; [exact Hpost|]. split.
  - apply (unlike_request_spec Examples.hex24 db Examples.post2 Examples.post1 post Hid Hpost).
    intros [H|[H|[]]]; discriminate H.
  - apply (unlike_request_spec Examples.hex24 db Examples.bob Examples.post1 post Hid Hpost).
    right. left. reflexivity.
Defined.

Example unlike_removes_the_caller :
  let post :=
    Examples.a_post [Examples.like_of Examples.alice; Examples.like_of Examples.bob] [] in
  run (unlike_post Examples.hex24 Examples.bob Examples.post1)
      (Examples.db_posts [(Examples.post1, post)])
  = (Sent {| status := 200%nat;
             res_body := Json (VLikes [Examples.like_of Examples.alice]) |},
     Examples.db_posts
       [(Examples.post1, Examples.a_post [Examples.like_of Examples.alice] [])]).
Proof. vm_compute. reflexivity. Qed.

(** C6, at a failing input: a request to add an experience (an education)
    entry with no field at all is answered 400, but the body is an object
    without any property: the list of field errors is not in it.  The
    handlers for creating a post, adding a comment and upserting a profile
    do send the list (see [create_post_invalid], [add_comment_invalid] and
    [upsert_profile_invalid]). *)
Theorem add_entry_validation_body_has_no_errors :
  let db := Examples.db_profile (Examples.a_profile [] []) in
  validationResult [("title", "Title is required");
                    ("company", "Company is required");
                    ("from", "From date is required")] ∅
  = [ {| ve_msg := "Title is required"; ve_param := "title"; ve_value := BUndefined |};
      {| ve_msg := "Company is required"; ve_param := "company"; ve_value := BUndefined |};
      {| ve_msg := "From date is required"; ve_param := "from"; ve_value := BUndefined |} ]
  /\
  run (add_experience Examples.hex24 Examples.alice ∅ Examples.exp1) db
  = (Sent {| status := 400%nat; res_body := JsonObject [] |}, db)
  /\
  run (add_education Examples.hex24 Examples.alice ∅ Examples.edu1) db
  = (Sent {| status := 400%nat; res_body := JsonObject [] |}, db).
Proof. vm_compute. repeat split; reflexivity. Qed.

(** C7, at a failing input: a like (an unlike) request for a post that is
    not in the store raises an exception in the handler; the catch block
    raises a reference error of its own, so the handler ends with an
    unhandled exception and no 500 answer is sent. *)
Theorem like_unlike_exception_not_answered :
  let db := Examples.db_posts [(Examples.post1, Examples.a_post [] [])] in
  run (like_post Examples.hex24 Examples.bob Examples.post2) db
  = (Unhandled (ReferenceError "err"), db)
  /\
  run (unlike_post Examples.hex24 Examples.bob Examples.post2) db
  = (Unhandled (ReferenceError "err"), db)
  /\
  run (like_post Examples.hex24 Examples.bob "not-an-id") db
  = (Unhandled (ReferenceError "err"), db).
Proof. vm_compute. repeat split; reflexivity. Qed.

(** C8: deleting a post as someone other than its author is answered 401
    and leaves the store as it is, the post included; deleting it as its
    author removes it from the store; deleting under an identifier that no
    post has is answered 404. *)
Theorem delete_post_spec
  (valid_oid : string -> bool) (db : Db) (caller id : string) :
  valid_oid id = true ->
  (forall post, posts db !! id = Some post -> post_user post <> caller ->
     run (delete_post valid_oid caller id) db =
       (Sent {| status := 401%nat;
                res_body := JsonObject [("msg", VString "User is not authorized")] |},
        db))
  /\
  (forall post, posts db !! id = Some post -> post_user post = caller ->
     exists db',
       run (delete_post valid_oid caller id) db =
         (Sent {| status := 200%nat;
                  res_body := JsonObject [("msg", VString "Post removed")] |}, db') /\
       posts db' !! id = None /\
       (forall id', id' <> id -> posts db' !! id' = posts db !! id') /\
       users db' = users db /\ profiles db' = profiles db)
  /\
  (posts db !! id = None ->
     run (delete_post valid_oid caller id) db =
       (Sent {| status := 404%nat;
                res_body := JsonObject [("msg", VString "Post not found")] |},
        db)).
Proof.
  intros Hid. split; [|split].
  - intros post Hpost Hu. now apply delete_post_not_author with post.
  - intros post Hpost Hu. exists (set_posts (delete id) db).
    split; [now apply delete_post_author with post|].
    cbn [set_posts posts users profiles].
    split; [apply lookup_delete_eq|].
    split; [|split; reflexivity].
    intros id' Hne. now apply lookup_delete_ne.
  - intros Hpost. now apply delete_post_absent.
Qed.

Lemma delete_post_spec_witness :
  let db := Examples.db_posts [(Examples.post1, Examples.a_post [] [])] in
  Examples.hex24 Examples.post1 = true /\
  run (delete_post Examples.hex24 Examples.bob Examples.post1) db =
    (Sent {| status := 401%nat;
             res_body := JsonObject [("msg", VString "User is not authorized")] |},
     db) /\
  (exists db',
     run (delete_post Examples.hex24 Examples.alice Examples.post1) db =
       (Sent {| status := 200%nat;
                res_body := JsonObject [("msg", VString "Post removed")] |}, db') /\
     posts db' !! Examples.post1 = None) /\
  run (delete_post Examples.hex24 Examples.alice Examples.post2) db =
    (Sent {| status := 404%nat;
             res_body := JsonObject [("msg", VString "Post not found")] |},
     db).
Proof.
  intros db.
  assert (Hid1 : Examples.hex24 Examples.post1 = true) by reflexivity.
  assert (Hid2 : Examples.hex24 Examples.post2 = true) by reflexivity.
  assert (Hpost : posts db !! Examples.post1 = Some (Examples.a_post [] []))
    by (vm_compute; reflexivity).
  split; [exact Hid1|]. split; [|split].
  - apply (delete_post_spec Examples.hex24 db Examples.bob Examples.post1 Hid1)
      with (post := Examples.a_post [] []); [exact Hpost|discriminate].
  - destruct (delete_post_spec Examples.hex24 db Examples.alice Examples.post1 Hid1)
      as (_ & Hauthor & _).
    destruct (Hauthor (Examples.a_post [] []) Hpost eq_refl) as (db' & Hrun & Hgone & _).
    exists db'. split; assumption.
  - apply (delete_post_spec Examples.hex24 db Examples.alice Examples.post2 Hid2).
    vm_compute. reflexivity.
Defined.

(** C10: the handler of [GET api/profile/user/:user_id] gives the same
    answer for an identifier that no profile has and for a string that is
    not an identifier at all: 400 with the message "Profile not found". *)
Theorem get_profile_by_user_not_found
  (valid_oid : string -> bool) (db : Db) (user_id : string) :
  valid_oid user_id = false \/ profiles db !! user_id = None ->
  run (get_profile_by_user valid_oid user_id) db =
    (Sent {| status := 400%nat;
             res_body := JsonObject [("msg", VString "Profile not found")] |},
     db).
Proof.
  intros [Hbad|Habsent].
  - now apply get_profile_malformed.
  - destruct (valid_oid user_id) eqn:Hid.
    + now apply get_profile_absent.
    + now apply get_profile_malformed.
Qed.

Lemma get_profile_by_user_not_found_witness :
  let db := Examples.db_profile (Examples.a_profile [] []) in
  (Examples.hex24 "me" = false /\ profiles db !! Examples.bob = None) /\
  run (get_profile_by_user Examples.hex24 "me") db =
    (Sent {| status := 400%nat;
             res_body := JsonObject [("msg", VString "Profile not found")] |},
     db) /\
  run (get_profile_by_user Examples.hex24 Examples.bob) db =
    (Sent {| status := 400%nat;
             res_body := JsonObject [("msg", VString "Profile not found")] |},
     db).
Proof.
  intros db.
  assert (Hbad : Examples.hex24 "me" = false) by reflexivity.
  assert (Habsent : profiles db !! Examples.bob = None) by (vm_compute; reflexivity).
  split; [split; assumption|]. split.
  - apply (get_profile_by_user_not_found Examples.hex24 db "me"). left. exact Hbad.
  - apply (get_profile_by_user_not_found Examples.hex24 db Examples.bob).
    right. exact Habsent.
Defined.


Example normalize_throws_out_of_upsert :
  let db := Examples.db_posts [] in
  run (upsert_profile Examples.hex24 Examples.https_prefix Examples.alice
         (<["website" := BString "not a url"]> Examples.minimal_profile_body)) db
  = (Unhandled (TypeError "Invalid URL"), db).
Proof. vm_compute. reflexivity. Qed.



(** A [skills] array is stored as it is, empty strings included, when its
    first element is not empty; the empty array does not pass validation. *)
Example upsert_skills_arrays :
  let db := Examples.db_posts [] in
  let with_skills l : gmap string bval :=
    {[ "status" := BString "dev"; "skills" := BArray l ]} in
  (exists profile,
     fst (run (upsert_profile Examples.hex24 Examples.https_prefix Examples.alice
                 (with_skills ["js"; ""])) db)
     = Sent {| status := 200%nat; res_body := Json (VProfile profile) |} /\
     pf_skills (fields profile) = ["js"; ""]) /\
  fst (run (upsert_profile Examples.hex24 Examples.https_prefix Examples.alice
              (with_skills [])) db)
  = Sent {| status := 400%nat;
            res_body := JsonObject
              [("errors",
                VErrors [ {| ve_msg := "Skills are required"; ve_param := "skills";
                             ve_value := BArray [] |} ])] |}.
Proof. split; [eexists; split|]; vm_compute; reflexivity. Qed.

(** The end-to-end example of the specification: a new user posts
    [{ status: "dev", skills: "js, node" }]. *)
Example upsert_minimal_profile :
  let db := Examples.db_posts [] in
  run (upsert_profile Examples.hex24 Examples.https_prefix Examples.alice
         Examples.minimal_profile_body) db
  = (Sent {| status := 200%nat;
             res_body := Json (VProfile (Examples.a_profile [] [])) |},
     set_profiles (insert Examples.alice (Examples.a_profile [] [])) db).
Proof. vm_compute. reflexivity. Qed.

(** * Further properties of the routers *)

(** ** Requests that fail, requests that only read *)

Lemma run_bind {A} (m : M A) (k : A -> M response) db :
  run (bind m k) db =
    match m db with
    | (Normal a, db') => run (k a) db'
    | (Throw e, db') => (Unhandled e, db')
    end.
Proof. unfold run, bind. destruct (m db) as [[a|e] db']; reflexivity. Qed.

(** X1: a request that is not answered 200 (an error answer, or no answer
    at all) leaves the store exactly as it was. *)
Theorem failed_request_leaves_store
  (valid_oid : string -> bool) (normalize : string -> option string)
  (r : request) (db : Db) :
  answered_200 (fst (run (handler valid_oid normalize r) db)) = false ->
  serve valid_oid normalize r db = db.
Proof.
  unfold serve.
  destruct r; cbn [handler];
    try (match goal with
         | |- context [run (?h _)] => unfold h
         | |- context [run (?h _ _)] => unfold h
         | |- context [run (?h _ _ _)] => unfold h
         | |- context [run (?h _ _ _ _)] => unfold h
         | |- context [run (?h _ _ _ _ _)] => unfold h
         end).
  all: try (unfold_handler; repeat handler_case; cbn [fst snd answered_200];
            cbn; solve [discriminate | intros _; reflexivity]).
  (* the profile upsert *)
  destruct (negb _); [intros _; reflexivity|].
  rewrite run_bind.
  pose proof (build_profileFields_db normalize caller b db) as Hb.
  destruct (build_profileFields normalize caller b db) as [[pf|e] db'];
    cbn [snd] in Hb; subst db'; [|intros _; reflexivity].
  unfold_handler. repeat handler_case; cbn;
    solve [discriminate | intros _; reflexivity].
Qed.

Lemma failed_request_leaves_store_witness :
  let db := Examples.db_posts
              [(Examples.post1, Examples.a_post [Examples.like_of Examples.bob] [])] in
  (answered_200
     (fst (run (handler Examples.hex24 Examples.https_prefix
                  (LikePost Examples.bob Examples.post1)) db)) = false /\
   serve Examples.hex24 Examples.https_prefix (LikePost Examples.bob Examples.post1) db = db)
  /\
  (answered_200
     (fst (run (handler Examples.hex24 Examples.https_prefix
                  (UnlikePost Examples.bob Examples.post2)) db)) = false /\
   serve Examples.hex24 Examples.https_prefix (UnlikePost Examples.bob Examples.post2) db = db).
Proof.
  intros db.
  assert (H1 : answered_200
     (fst (run (handler Examples.hex24 Examples.https_prefix
                  (LikePost Examples.bob Examples.post1)) db)) = false)
    by (vm_compute; reflexivity).
  assert (H2 : answered_200
     (fst (run (handler Examples.hex24 Examples.https_prefix
                  (UnlikePost Examples.bob Examples.post2)) db)) = false)
    by (vm_compute; reflexivity).
  split; (split; [assumption|]).
  - exact (failed_request_leaves_store _ _ _ db H1).
  - exact (failed_request_leaves_store _ _ _ db H2).
Defined.

(** X2: the three read routes (a post by id, the caller's profile, a
    profile by user id) always send an answer, whatever the identifier, and
    never change the store; the answer is 200 only with a document that is
    in the store. *)
Theorem read_routes_answer_and_keep_store
  (valid_oid : string -> bool) (db : Db) (id : string) :
  (exists resp, run (get_post valid_oid id) db = (Sent resp, db) /\
     (status resp = 200%nat ->
      exists post, posts db !! id = Some post /\ res_body resp = Json (VPost id post)))
  /\
  (exists resp, run (get_me valid_oid id) db = (Sent resp, db) /\
     (status resp = 200%nat ->
      exists profile, profiles db !! id = Some profile /\
                      res_body resp = Json (VProfile profile)))
  /\
  (exists resp, run (get_profile_by_user valid_oid id) db = (Sent resp, db) /\
     (status resp = 200%nat ->
      exists profile, profiles db !! id = Some profile /\
                      res_body resp = Json (VProfile profile))).
Proof.
  unfold get_post, get_me, get_profile_by_user. unfold_handler.
  destruct (valid_oid id); hsimpl.
  - destruct (posts db !! id) as [post|], (profiles db !! id) as [profile|];
      hsimpl; repeat split; eexists; (split; [reflexivity|]); cbn;
      try discriminate; eauto.
  - repeat split; eexists; (split; [reflexivity|]); cbn; discriminate.
Qed.

(** ** What a request may touch *)

(** The building of the profile fields reads the store and leaves it. *)
Ltac split_build :=
  match goal with
  | |- context [build_profileFields ?n ?c ?b ?d] =>
      let Hb := fresh "Hb" in
      pose proof (build_profileFields_db n c b d) as Hb;
      destruct (build_profileFields n c b d) as [[?|?] ?];
      cbn [snd] in Hb; subst; hsimpl
  end.

(** All the paths of the handler of a request. *)
Ltac request_paths :=
  cbn [handler];
  unfold create_post, get_post, delete_post, like_post, unlike_post,
    add_comment, delete_comment, get_me, upsert_profile, get_profile_by_user,
    delete_account, add_experience, remove_experience, add_education,
    remove_education;
  unfold_handler;
  repeat first [split_build | handler_case].

(** X3: each router keeps to its collections.  A request of the posts
    router changes neither the users nor the profiles; a request of the
    profile router, the deletion of the account apart, changes neither the
    posts nor the users. *)
Theorem routers_keep_to_their_collections
  (valid_oid : string -> bool) (normalize : string -> option string)
  (r : request) (db : Db) :
  let db' := serve valid_oid normalize r db in
  (posts_route r = true ->
   users db' = users db /\ profiles db' = profiles db)
  /\
  (posts_route r = false -> (forall caller, r <> DeleteAccount caller) ->
   posts db' = posts db /\ users db' = users db).
Proof.
  unfold serve, run.
  destruct r; cbn [posts_route]; split;
    try (intros Hr; discriminate Hr); intros Hr; try intros Hd;
    try (exfalso; eapply Hd; reflexivity);
    request_paths; cbn; split; reflexivity.
Qed.

Lemma routers_keep_to_their_collections_witness :
  let db := Examples.db_profile (Examples.a_profile [] []) in
  let like := LikePost Examples.bob Examples.post1 in
  let add := AddExperience Examples.alice
               {[ "title" := BString "Engineer"; "company" := BString "Acme";
                  "from" := BString "2019-01-01" ]} Examples.exp1 in
  (posts_route like = true /\
   users (serve Examples.hex24 Examples.https_prefix like db) = users db /\
   profiles (serve Examples.hex24 Examples.https_prefix like db) = profiles db)
  /\
  (posts_route add = false /\
   posts (serve Examples.hex24 Examples.https_prefix add db) = posts db /\
   users (serve Examples.hex24 Examples.https_prefix add db) = users db).
Proof.
  intros db like add. split.
  - split; [reflexivity|].
    apply (routers_keep_to_their_collections
             Examples.hex24 Examples.https_prefix like db). reflexivity.
  - split; [reflexivity|].
    apply (routers_keep_to_their_collections
             Examples.hex24 Examples.https_prefix add db);
      [reflexivity|discriminate].
Defined.

(** X4: a request never changes the profile of another user than its
    caller. *)
Theorem other_profiles_untouched
  (valid_oid : string -> bool) (normalize : string -> option string)
  (r : request) (db : Db) (user : string) :
  caller_of r <> Some user ->
  profiles (serve valid_oid normalize r db) !! user = profiles db !! user.
Proof.
  unfold serve, run.
  destruct r; cbn [caller_of]; intros Hc; request_paths;
    cbn [snd set_posts set_profiles set_users profiles];
    try reflexivity;
    first [ rewrite lookup_insert_ne by congruence; reflexivity
          | rewrite lookup_delete_ne by congruence; reflexivity ].
Qed.

Lemma other_profiles_untouched_witness :
  let db := Examples.db_profile (Examples.a_profile [Examples.an_experience Examples.exp1] []) in
  let r := RemoveExperience Examples.bob Examples.exp1 in
  caller_of r <> Some Examples.alice /\
  profiles (serve Examples.hex24 Examples.https_prefix r db) !! Examples.alice
  = profiles db !! Examples.alice.
Proof.
  intros db r.
  assert (Hc : caller_of r <> Some Examples.alice) by discriminate.
  split; [exact Hc|].
  exact (other_profiles_untouched Examples.hex24 Examples.https_prefix r db
           Examples.alice Hc).
Defined.

Lemma same_snapshot_refl p : same_snapshot p p.
Proof. repeat split. Qed.

Lemma same_snapshot_with_likes ls p : same_snapshot p (with_likes ls p).
Proof. repeat split. Qed.

Lemma same_snapshot_with_comments cs p : same_snapshot p (with_comments cs p).
Proof. repeat split. Qed.

(** A lookup in the posts after a path of a handler, by cases on whether
    the post written or removed is the one looked up. *)
Ltac posts_lookup id :=
  cbn [snd set_posts set_profiles set_users posts] in *;
  repeat match goal with
    | |- context [<[?k := _]> _ !! id] =>
        destruct (decide (k = id)) as [->|?];
        [rewrite lookup_insert_eq | rewrite lookup_insert_ne by assumption]
    | H : context [<[?k := _]> _ !! id] |- _ =>
        destruct (decide (k = id)) as [->|?];
        [rewrite lookup_insert_eq in H | rewrite lookup_insert_ne in H by assumption]
    | |- context [delete ?k _ !! id] =>
        destruct (decide (k = id)) as [->|?];
        [rewrite lookup_delete_eq | rewrite lookup_delete_ne by assumption]
    | H : context [delete ?k _ !! id] |- _ =>
        destruct (decide (k = id)) as [->|?];
        [rewrite lookup_delete_eq in H | rewrite lookup_delete_ne in H by assumption]
    end.

(** X5: only a request of its author can take a post out of the store.
    After any request of another caller, or of no caller, a post that was
    in the store is still there. *)
Theorem post_outlives_other_callers
  (valid_oid : string -> bool) (normalize : string -> option string)
  (r : request) (db : Db) (id : string) (post : Post) :
  posts db !! id = Some post ->
  caller_of r <> Some (post_user post) ->
  ~ creates_post r id ->
  is_Some (posts (serve valid_oid normalize r db) !! id).
Proof.
  unfold serve, run.
  destruct r; cbn [caller_of creates_post]; intros Hpost Hc Hnew; request_paths;
    posts_lookup id; eauto; try congruence.
  - (* the post is deleted: the caller is its author *)
    exfalso. apply Hc. f_equal.
    match goal with H : negb (String.eqb _ _) = false |- _ =>
      apply negb_false_iff, String.eqb_eq in H end.
    congruence.
  - (* the account is deleted: the posts of the caller go *)
    rewrite map_lookup_filter. rewrite Hpost. cbn.
    destruct (String.eqb_spec (post_user post) caller) as [Heq|Hne];
      [congruence|].
    rewrite option_guard_True by reflexivity. eauto.
Qed.

Lemma post_outlives_other_callers_witness :
  let post := Examples.a_post [] [] in
  let db := Examples.db_posts [(Examples.post1, post)] in
  let r := DeletePost Examples.bob Examples.post1 in
  (posts db !! Examples.post1 = Some post /\
   caller_of r <> Some (post_user post) /\
   ~ creates_post r Examples.post1) /\
  is_Some (posts (serve Examples.hex24 Examples.https_prefix r db) !! Examples.post1).
Proof.
  intros post db r.
  assert (Hpost : posts db !! Examples.post1 = Some post) by (vm_compute; reflexivity).
  assert (Hc : caller_of r <> Some (post_user post)) by discriminate.
  assert (Hnew : ~ creates_post r Examples.post1) by (intros []).
  split; [repeat split; assumption|].
  exact (post_outlives_other_callers Examples.hex24 Examples.https_prefix r db
           Examples.post1 post Hpost Hc Hnew).
Defined.

(** X6: the author, the text and the name and avatar taken at creation
    never change: whatever the request, a post that is still in the store
    afterwards has them as before. *)
Theorem post_snapshot_never_changes
  (valid_oid : string -> bool) (normalize : string -> option string)
  (r : request) (db : Db) (id : string) (post post' : Post) :
  posts db !! id = Some post ->
  ~ creates_post r id ->
  posts (serve valid_oid normalize r db) !! id = Some post' ->
  same_snapshot post post'.
Proof.
  unfold serve, run.
  destruct r; cbn [creates_post]; intros Hpost Hnew; request_paths;
    posts_lookup id; intros Hpost';
    try (replace post' with post by congruence; apply same_snapshot_refl);
    try congruence;
    try (injection Hpost' as <-;
         match goal with H : posts _ !! id = Some ?p |- _ =>
           replace post with p by congruence end;
         first [apply same_snapshot_with_likes | apply same_snapshot_with_comments]).
  (* the account is deleted: the posts that stay are as they were *)
  apply map_lookup_filter_Some in Hpost' as [Hpost' _].
  replace post' with post by congruence; apply same_snapshot_refl.
Qed.

Lemma post_snapshot_never_changes_witness :
  let post := Examples.a_post [] [] in
  let db := Examples.db_posts [(Examples.post1, post)] in
  let r := LikePost Examples.bob Examples.post1 in
  let post' := Examples.a_post [Examples.like_of Examples.bob] [] in
  (posts db !! Examples.post1 = Some post /\
   ~ creates_post r Examples.post1 /\
   posts (serve Examples.hex24 Examples.https_prefix r db) !! Examples.post1
     = Some post') /\
  same_snapshot post post'.
Proof.
  intros post db r post'.
  assert (Hpost : posts db !! Examples.post1 = Some post) by (vm_compute; reflexivity).
  assert (Hnew : ~ creates_post r Examples.post1) by (intros []).
  assert (Hpost' : posts (serve Examples.hex24 Examples.https_prefix r db)
                     !! Examples.post1 = Some post') by (vm_compute; reflexivity).
  split; [repeat split; assumption|].
  exact (post_snapshot_never_changes Examples.hex24 Examples.https_prefix r db
           Examples.post1 post post' Hpost Hnew Hpost').
Defined.

Lemma only_post_list_changed_refl {A} (keeps : Post -> A) id db :
  only_post_list_changed keeps id db db.
Proof.
  repeat split. intros id'. destruct (posts db !! id'); [|exact I].
  repeat split.
Qed.

Lemma only_post_list_changed_insert {A} (keeps : Post -> A) id db p p' :
  posts db !! id = Some p -> keeps p' = keeps p -> same_snapshot p p' ->
  only_post_list_changed keeps id db (set_posts (insert id p') db).
Proof.
  intros Hp Hk Hs. repeat split. intros id'. cbn [set_posts posts].
  destruct (decide (id = id')) as [<-|Hne].
  - rewrite lookup_insert_eq, Hp. repeat split; try apply Hs; auto. congruence.
  - rewrite lookup_insert_ne by exact Hne.
    destruct (posts db !! id'); [|exact I]. repeat split.
Qed.

(** X7: a like or unlike request changes at most the likes of the post it
    names: the comments of that post, every other post, the users and the
    profiles are as before, and no post comes or goes. *)
Theorem like_unlike_touch_only_the_likes
  (valid_oid : string -> bool) (normalize : string -> option string)
  (db : Db) (caller id : string) :
  only_post_list_changed comments id db
    (serve valid_oid normalize (LikePost caller id) db) /\
  only_post_list_changed comments id db
    (serve valid_oid normalize (UnlikePost caller id) db).
Proof.
  unfold serve, run. split; request_paths; cbn [snd];
    first [ apply only_post_list_changed_refl
          | eapply only_post_list_changed_insert;
            [eassumption|reflexivity|apply same_snapshot_with_likes] ].
Qed.

(** X8: adding or deleting a comment changes at most the comments of the
    post it names: the likes of that post, every other post, the users and
    the profiles are as before, and no post comes or goes. *)
Theorem comment_requests_touch_only_the_comments
  (valid_oid : string -> bool) (normalize : string -> option string)
  (db : Db) (caller id new_id cid : string) (b : gmap string bval) :
  only_post_list_changed likes id db
    (serve valid_oid normalize (AddComment caller id b new_id) db) /\
  only_post_list_changed likes id db
    (serve valid_oid normalize (DeleteComment caller id cid) db).
Proof.
  unfold serve, run. split; request_paths; cbn [snd];
    first [ apply only_post_list_changed_refl
          | eapply only_post_list_changed_insert;
            [eassumption|reflexivity|apply same_snapshot_with_comments] ].
Qed.

(** ** Round trips *)

Lemma splice_head {A} (x : A) (l : list A) : Js.splice 0 1 (x :: l) = l.
Proof. exact (splice_one_at [] x l). Qed.

Lemma restore_post db id p p1 :
  posts db !! id = Some p ->
  set_posts (insert id p) (set_posts (insert id p1) db) = db.
Proof.
  intros Hp. destruct db as [us prs ps]. unfold set_posts.
  cbn [users profiles posts] in *. f_equal.
  rewrite insert_insert_eq. now apply insert_id.
Qed.

Lemma restore_profile db user p p1 :
  profiles db !! user = Some p ->
  set_profiles (insert user p) (set_profiles (insert user p1) db) = db.
Proof.
  intros Hp. destruct db as [us prs ps]. unfold set_profiles.
  cbn [users profiles posts] in *. f_equal.
  rewrite insert_insert_eq. now apply insert_id.
Qed.

(** X9: a like followed by an unlike of the same caller brings the store
    back to what it was: the like that [unshift] put in front is the one
    that [indexOf] and [splice] take out. *)
Theorem like_then_unlike_restores
  (valid_oid : string -> bool) (db : Db) (caller id : string) (post : Post) :
  valid_oid id = true ->
  posts db !! id = Some post ->
  ~ In caller (map like_user (likes post)) ->
  exists db1,
    run (like_post valid_oid caller id) db =
      (Sent {| status := 200%nat;
               res_body := Json (VLikes ({| like_user := caller |} :: likes post)) |},
       db1) /\
    run (unlike_post valid_oid caller id) db1 =
      (Sent {| status := 200%nat; res_body := Json (VLikes (likes post)) |}, db).
Proof.
  intros Hid Hpost Hfresh.
  eexists. split; [now apply like_post_fresh|].
  unfold unlike_post. unfold_handler. rewrite Hid. hsimpl.
  cbn [set_posts posts]. rewrite lookup_insert_eq. hsimpl.
  cbn [with_likes likes List.filter like_user map Js.indexOf Js.indexOf_from].
  unfold Js.indexOf. cbn [Js.indexOf_from].
  rewrite String.eqb_refl. cbn [length Nat.eqb]. hsimpl.
  rewrite splice_head.
  change (set_posts _ (set_posts _ db))
    with (set_posts (insert id (with_likes (likes post)
                                  (with_likes ({| like_user := caller |} :: likes post) post)))
            (set_posts (insert id (with_likes ({| like_user := caller |} :: likes post) post)) db)).
  replace (with_likes (likes post) (with_likes ({| like_user := caller |} :: likes post) post))
    with post by (destruct post; reflexivity).
  now rewrite restore_post.
Qed.

Lemma like_then_unlike_restores_witness :
  let post := Examples.a_post [Examples.like_of Examples.alice] [] in
  let db := Examples.db_posts [(Examples.post1, post)] in
  (Examples.hex24 Examples.post1 = true /\
   posts db !! Examples.post1 = Some post /\
   ~ In Examples.bob (map like_user (likes post))) /\
  exists db1,
    run (like_post Examples.hex24 Examples.bob Examples.post1) db =
      (Sent {| status := 200%nat;
               res_body := Json (VLikes ({| like_user := Examples.bob |} :: likes post)) |},
       db1) /\
    run (unlike_post Examples.hex24 Examples.bob Examples.post1) db1 =
      (Sent {| status := 200%nat; res_body := Json (VLikes (likes post)) |}, db).
Proof.
  intros post db.
  assert (Hid : Examples.hex24 Examples.post1 = true) by reflexivity.
  assert (Hpost : posts db !! Examples.post1 = Some post) by (vm_compute; reflexivity).
  assert (Hfresh : ~ In Examples.bob (map like_user (likes post)))
    by (intros [H|[]]; discriminate H).
  split; [repeat split; assumption|].
  exact (like_then_unlike_restores Examples.hex24 db Examples.bob Examples.post1 post
           Hid Hpost Hfresh).
Defined.

Section CommentRoundTrip.
Variable valid_oid : string -> bool.
Variables (db : Db) (caller id new_id : string) (b : gmap string bval).
Variables (user : User) (post : Post).
Hypothesis Hcaller : valid_oid caller = true.
Hypothesis Hid : valid_oid id = true.
Hypothesis Hvalid : validationResult [("text", "Text is required")] b = [].
Hypothesis Huser : users db !! caller = Some user.
Hypothesis Hpost : posts db !! id = Some post.

Lemma add_comment_success :
  let newComment :=
    {| comment_id := new_id; comment_user := caller; comment_text := field b "text";
       comment_name := u_name user; comment_avatar := u_avatar user |} in
  run (add_comment valid_oid caller id b new_id) db =
    (Sent {| status := 200%nat;
             res_body := Json (VComments (newComment :: comments post)) |},
     set_posts (insert id (with_comments (newComment :: comments post) post)) db).
Proof.
  unfold add_comment. rewrite Hvalid. cbn [errors_isEmpty negb].
  unfold_handler. rewrite Hcaller, Hid. hsimpl. rewrite Huser, Hpost. reflexivity.
Qed.
End CommentRoundTrip.

(** Checks on fields that all hold a non-empty string find no error. *)
Lemma validationResult_filled checks b :
  (forall name msg, In (name, msg) checks ->
     exists s, field b name = BString s /\ s <> EmptyString) ->
  validationResult checks b = [].
Proof.
  unfold validationResult. induction checks as [|[name msg] checks IH];
    intros Hall; [reflexivity|]. cbn [flat_map fst snd].
  destruct (Hall name msg (or_introl eq_refl)) as (s & Hs & Hne).
  rewrite (check_not_isEmpty_filled name msg b s Hs Hne). cbn [app].
  apply IH. intros n m Hin. apply (Hall n m). now right.
Qed.

Lemma text_validated b text :
  field b "text" = BString text -> text <> EmptyString ->
  validationResult [("text", "Text is required")] b = [].
Proof.
  intros Ht Hne. apply validationResult_filled.
  intros name msg [[= <- <-]|[]]. eauto.
Qed.

(** X10: a comment whose text is a non-empty string, added to an existing
    post by a caller with a user record, is taken out again by a delete
    request of its author under its identifier, and the store is back to
    what it was. *)
Theorem add_then_delete_comment_restores
  (valid_oid : string -> bool) (db : Db) (caller id new_id : string)
  (b : gmap string bval) (text : string) (user : User) (post : Post) :
  valid_oid caller = true ->
  valid_oid id = true ->
  field b "text" = BString text ->
  text <> EmptyString ->
  users db !! caller = Some user ->
  posts db !! id = Some post ->
  let newComment :=
    {| comment_id := new_id; comment_user := caller; comment_text := BString text;
       comment_name := u_name user; comment_avatar := u_avatar user |} in
  exists db1,
    run (add_comment valid_oid caller id b new_id) db =
      (Sent {| status := 200%nat;
               res_body := Json (VComments (newComment :: comments post)) |}, db1) /\
    run (delete_comment valid_oid caller id new_id) db1 =
      (Sent {| status := 200%nat; res_body := Json (VComments (comments post)) |}, db).
Proof.
  intros Hcaller Hid Htext Hne Huser Hpost newComment.
  pose proof (text_validated b text Htext Hne) as Hvalid.
  eexists. split.
  - subst newComment. rewrite <- Htext.
    exact (add_comment_success valid_oid db caller id new_id b user post
             Hcaller Hid Hvalid Huser Hpost).
  - unfold delete_comment. unfold_handler. rewrite Hid. hsimpl.
    cbn [set_posts posts]. rewrite lookup_insert_eq. hsimpl.
    cbn [with_comments comments List.find comment_id comment_user map].
    rewrite String.eqb_refl. hsimpl. cbn [comment_user].
    rewrite String.eqb_refl. cbn [negb]. hsimpl.
    unfold Js.indexOf. cbn [Js.indexOf_from]. rewrite String.eqb_refl.
    rewrite splice_head.
    match goal with
    | |- context [set_posts (insert id ?p2) (set_posts (insert id ?p1) db)] =>
        replace p2 with post by (destruct post; reflexivity)
    end.
    now rewrite restore_post.
Qed.

Lemma add_then_delete_comment_restores_witness :
  let post := Examples.a_post [] [Examples.a_comment Examples.comment1 Examples.bob "first"] in
  let db := Examples.db_posts [(Examples.post1, post)] in
  let b : gmap string bval := {[ "text" := BString "second" ]} in
  let user := {| u_name := "Alice"; u_avatar := "a.png" |} in
  let newComment :=
    {| comment_id := Examples.comment2; comment_user := Examples.alice;
       comment_text := BString "second";
       comment_name := "Alice"; comment_avatar := "a.png" |} in
  (Examples.hex24 Examples.alice = true /\ Examples.hex24 Examples.post1 = true /\
   field b "text" = BString "second" /\ "second" <> EmptyString /\
   users db !! Examples.alice = Some user /\
   posts db !! Examples.post1 = Some post) /\
  exists db1,
    run (add_comment Examples.hex24 Examples.alice Examples.post1 b Examples.comment2) db =
      (Sent {| status := 200%nat;
               res_body := Json (VComments (newComment :: comments post)) |}, db1) /\
    run (delete_comment Examples.hex24 Examples.alice Examples.post1 Examples.comment2) db1 =
      (Sent {| status := 200%nat; res_body := Json (VComments (comments post)) |}, db).
Proof.
  intros post db b user newComment.
  assert (H1 : Examples.hex24 Examples.alice = true) by reflexivity.
  assert (H2 : Examples.hex24 Examples.post1 = true) by reflexivity.
  assert (H3 : field b "text" = BString "second") by (vm_compute; reflexivity).
  assert (H3' : "second" <> EmptyString) by discriminate.
  assert (H4 : users db !! Examples.alice = Some user) by (vm_compute; reflexivity).
  assert (H5 : posts db !! Examples.post1 = Some post) by (vm_compute; reflexivity).
  split; [repeat split; assumption|].
  exact (add_then_delete_comment_restores Examples.hex24 db Examples.alice
           Examples.post1 Examples.comment2 b "second" user post H1 H2 H3 H3' H4 H5).
Defined.

Section EntryRoundTrip.
Variable valid_oid : string -> bool.
Variables (db : Db) (caller new_id : string) (b : gmap string bval).
Variable profile : Profile.
Hypothesis Hcaller : valid_oid caller = true.
Hypothesis Hprofile : profiles db !! caller = Some profile.

Lemma add_experience_success :
  validationResult [("title", "Title is required");
                    ("company", "Company is required");
                    ("from", "From date is required")] b = [] ->
  let newExp :=
    {| exp_id := new_id;
       exp_title := field b "title"; exp_company := field b "company";
       exp_location := field b "location"; exp_from := field b "from";
       exp_to := field b "to"; exp_current := field b "current";
       exp_description := field b "description" |} in
  let profile' := with_experience (newExp :: experience profile) profile in
  run (add_experience valid_oid caller b new_id) db =
    (Sent {| status := 200%nat; res_body := Json (VProfile profile') |},
     set_profiles (insert caller profile') db).
Proof.
  intros Hvalid. unfold add_experience. rewrite Hvalid. cbn [errors_isEmpty negb].
  unfold_handler. rewrite Hcaller. hsimpl. rewrite Hprofile. reflexivity.
Qed.

Lemma add_education_success :
  validationResult [("school", "School is required");
                    ("degree", "Degree is required");
                    ("fieldofstudy", "Field of study is required");
                    ("from", "from date is required")] b = [] ->
  let newEdu :=
    {| edu_id := new_id;
       edu_school := field b "school"; edu_degree := field b "degree";
       edu_fieldofstudy := field b "fieldofstudy"; edu_from := field b "from";
       edu_to := field b "to"; edu_current := field b "current";
       edu_description := field b "description" |} in
  let profile' := with_education (newEdu :: education profile) profile in
  run (add_education valid_oid caller b new_id) db =
    (Sent {| status := 200%nat; res_body := Json (VProfile profile') |},
     set_profiles (insert caller profile') db).
Proof.
  intros Hvalid. unfold add_education. rewrite Hvalid. cbn [errors_isEmpty negb].
  unfold_handler. rewrite Hcaller. hsimpl. rewrite Hprofile. reflexivity.
Qed.

Lemma remove_front_experience entry db1 :
  exp_id entry = new_id ->
  db1 = set_profiles
          (insert caller (with_experience (entry :: experience profile) profile)) db ->
  run (remove_experience valid_oid caller new_id) db1 =
    (Sent {| status := 200%nat; res_body := Json (VProfile profile) |}, db).
Proof.
  intros He ->. unfold remove_experience. unfold_handler. rewrite Hcaller. hsimpl.
  cbn [set_profiles profiles]. rewrite lookup_insert_eq. hsimpl.
  cbn [with_experience experience map]. unfold Js.indexOf. cbn [Js.indexOf_from].
  rewrite He, String.eqb_refl, splice_head.
  match goal with
  | |- context [set_profiles (insert caller ?p2) (set_profiles (insert caller ?p1) db)] =>
      replace p2 with profile by (destruct profile; reflexivity)
  end.
  now rewrite restore_profile.
Qed.

Lemma remove_front_education entry db1 :
  edu_id entry = new_id ->
  db1 = set_profiles
          (insert caller (with_education (entry :: education profile) profile)) db ->
  run (remove_education valid_oid caller new_id) db1 =
    (Sent {| status := 200%nat; res_body := Json (VProfile profile) |}, db).
Proof.
  intros He ->. unfold remove_education. unfold_handler. rewrite Hcaller. hsimpl.
  cbn [set_profiles profiles]. rewrite lookup_insert_eq. hsimpl.
  cbn [with_education education map]. unfold Js.indexOf. cbn [Js.indexOf_from].
  rewrite He, String.eqb_refl, splice_head.
  match goal with
  | |- context [set_profiles (insert caller ?p2) (set_profiles (insert caller ?p1) db)] =>
      replace p2 with profile by (destruct profile; reflexivity)
  end.
  now rewrite restore_profile.
Qed.
End EntryRoundTrip.

(** What a 200 answer to an add request tells. *)
Lemma add_experience_200 valid_oid db db1 caller new_id b resp :
  run (add_experience valid_oid caller b new_id) db = (Sent resp, db1) ->
  status resp = 200%nat ->
  exists profile,
    valid_oid caller = true /\ profiles db !! caller = Some profile /\
    let newExp :=
      {| exp_id := new_id;
         exp_title := field b "title"; exp_company := field b "company";
         exp_location := field b "location"; exp_from := field b "from";
         exp_to := field b "to"; exp_current := field b "current";
         exp_description := field b "description" |} in
    let profile' := with_experience (newExp :: experience profile) profile in
    resp = {| status := 200%nat; res_body := Json (VProfile profile') |} /\
    db1 = set_profiles (insert caller profile') db.
Proof.
  intros Hrun Hok. revert Hrun. unfold add_experience. unfold_handler.
  repeat handler_case; intros [= <- <-]; try discriminate Hok.
  eexists. repeat split; eassumption.
Qed.

Lemma add_education_200 valid_oid db db1 caller new_id b resp :
  run (add_education valid_oid caller b new_id) db = (Sent resp, db1) ->
  status resp = 200%nat ->
  exists profile,
    valid_oid caller = true /\ profiles db !! caller = Some profile /\
    let newEdu :=
      {| edu_id := new_id;
         edu_school := field b "school"; edu_degree := field b "degree";
         edu_fieldofstudy := field b "fieldofstudy"; edu_from := field b "from";
         edu_to := field b "to"; edu_current := field b "current";
         edu_description := field b "description" |} in
    let profile' := with_education (newEdu :: education profile) profile in
    resp = {| status := 200%nat; res_body := Json (VProfile profile') |} /\
    db1 = set_profiles (insert caller profile') db.
Proof.
  intros Hrun Hok. revert Hrun. unfold add_education. unfold_handler.
  repeat handler_case; intros [= <- <-]; try discriminate Hok.
  eexists. repeat split; eassumption.
Qed.

(** X11: when a request to add an experience entry is answered 200, a
    delete request of the same caller under the identifier of the new entry
    removes it again and the store is back to what it was before the two,
    even when an older entry has the same identifier. *)
Theorem add_then_remove_experience_restores
  (valid_oid : string -> bool) (db db1 : Db) (caller new_id : string)
  (b : gmap string bval) (resp : response) :
  run (add_experience valid_oid caller b new_id) db = (Sent resp, db1) ->
  status resp = 200%nat ->
  exists profile,
    profiles db !! caller = Some profile /\
    run (remove_experience valid_oid caller new_id) db1 =
      (Sent {| status := 200%nat; res_body := Json (VProfile profile) |}, db).
Proof.
  intros Hrun Hok.
  destruct (add_experience_200 valid_oid db db1 caller new_id b resp Hrun Hok)
    as (profile & Hcaller & Hprofile & _ & Hdb1).
  exists profile. split; [exact Hprofile|].
  eapply (remove_front_experience valid_oid db caller new_id profile Hcaller Hprofile);
    [|exact Hdb1].
  reflexivity.
Qed.

(** X12: the same for an education entry: when the add request is
    answered 200, the delete request under the new identifier brings the
    store back to what it was. *)
Theorem add_then_remove_education_restores
  (valid_oid : string -> bool) (db db1 : Db) (caller new_id : string)
  (b : gmap string bval) (resp : response) :
  run (add_education valid_oid caller b new_id) db = (Sent resp, db1) ->
  status resp = 200%nat ->
  exists profile,
    profiles db !! caller = Some profile /\
    run (remove_education valid_oid caller new_id) db1 =
      (Sent {| status := 200%nat; res_body := Json (VProfile profile) |}, db).
Proof.
  intros Hrun Hok.
  destruct (add_education_200 valid_oid db db1 caller new_id b resp Hrun Hok)
    as (profile & Hcaller & Hprofile & _ & Hdb1).
  exists profile. split; [exact Hprofile|].
  eapply (remove_front_education valid_oid db caller new_id profile Hcaller Hprofile);
    [|exact Hdb1].
  reflexivity.
Qed.

Lemma add_then_remove_experience_restores_witness :
  let profile := Examples.a_profile [Examples.an_experience Examples.exp1] [] in
  let db := Examples.db_profile profile in
  let b : gmap string bval :=
    {[ "title" := BString "Engineer"; "company" := BString "Acme";
       "from" := BString "2019-01-01" ]} in
  let profile1 :=
    Examples.a_profile [Examples.an_experience Examples.exp2;
                        Examples.an_experience Examples.exp1] [] in
  let resp := {| status := 200%nat; res_body := Json (VProfile profile1) |} in
  let db1 := Examples.db_profile profile1 in
  (run (add_experience Examples.hex24 Examples.alice b Examples.exp2) db = (Sent resp, db1) /\
   status resp = 200%nat) /\
  exists profile0,
    profiles db !! Examples.alice = Some profile0 /\
    run (remove_experience Examples.hex24 Examples.alice Examples.exp2) db1 =
      (Sent {| status := 200%nat; res_body := Json (VProfile profile0) |}, db).
Proof.
  intros profile db b profile1 resp db1.
  assert (H1 : run (add_experience Examples.hex24 Examples.alice b Examples.exp2) db
               = (Sent resp, db1)) by (vm_compute; reflexivity).
  assert (H2 : status resp = 200%nat) by reflexivity.
  split; [split; assumption|].
  exact (add_then_remove_experience_restores Examples.hex24 db db1 Examples.alice
           Examples.exp2 b resp H1 H2).
Defined.

Lemma add_then_remove_education_restores_witness :
  let profile := Examples.a_profile [] [Examples.an_education Examples.edu1] in
  let db := Examples.db_profile profile in
  let b : gmap string bval :=
    {[ "school" := BString "MIT"; "degree" := BString "BSc";
       "fieldofstudy" := BString "CS"; "from" := BString "2015-09-01" ]} in
  let profile1 :=
    Examples.a_profile [] [Examples.an_education Examples.edu2;
                           Examples.an_education Examples.edu1] in
  let resp := {| status := 200%nat; res_body := Json (VProfile profile1) |} in
  let db1 := Examples.db_profile profile1 in
  (run (add_education Examples.hex24 Examples.alice b Examples.edu2) db = (Sent resp, db1) /\
   status resp = 200%nat) /\
  exists profile0,
    profiles db !! Examples.alice = Some profile0 /\
    run (remove_education Examples.hex24 Examples.alice Examples.edu2) db1 =
      (Sent {| status := 200%nat; res_body := Json (VProfile profile0) |}, db).
Proof.
  intros profile db b profile1 resp db1.
  assert (H1 : run (add_education Examples.hex24 Examples.alice b Examples.edu2) db
               = (Sent resp, db1)) by (vm_compute; reflexivity).
  assert (H2 : status resp = 200%nat) by reflexivity.
  split; [split; assumption|].
  exact (add_then_remove_education_restores Examples.hex24 db db1 Examples.alice
           Examples.edu2 b resp H1 H2).
Defined.

(** X13: a post whose text is a non-empty string, created by a caller
    with a user record, can be read back under its identifier: it carries
    the caller, the text of the request and the name and avatar of the
    caller's user record, and has no like and no comment.  Deleting it as
    the same caller brings the store back to what it was. *)
Theorem create_read_delete_post
  (valid_oid : string -> bool) (db : Db) (caller new_id : string)
  (b : gmap string bval) (text : string) (user : User) :
  valid_oid caller = true ->
  valid_oid new_id = true ->
  field b "text" = BString text ->
  text <> EmptyString ->
  users db !! caller = Some user ->
  posts db !! new_id = None ->
  let newPost :=
    {| post_user := caller; post_text := BString text;
       post_name := u_name user; post_avatar := u_avatar user;
       likes := []; comments := [] |} in
  exists db1,
    run (create_post valid_oid caller b new_id) db =
      (Sent {| status := 200%nat; res_body := Json (VPost new_id newPost) |}, db1) /\
    run (get_post valid_oid new_id) db1 =
      (Sent {| status := 200%nat; res_body := Json (VPost new_id newPost) |}, db1) /\
    run (delete_post valid_oid caller new_id) db1 =
      (Sent {| status := 200%nat;
               res_body := JsonObject [("msg", VString "Post removed")] |}, db).
Proof.
  intros Hcaller Hid Htext Hne Huser Hfresh newPost.
  pose proof (text_validated b text Htext Hne) as Hvalid.
  exists (set_posts (insert new_id newPost) db).
  split; [|split].
  - unfold create_post. rewrite Hvalid. cbn [errors_isEmpty negb].
    unfold_handler. rewrite Hcaller. hsimpl. rewrite Huser. hsimpl.
    rewrite Htext. reflexivity.
  - unfold get_post. unfold_handler. rewrite Hid. hsimpl.
    cbn [set_posts posts]. rewrite lookup_insert_eq. reflexivity.
  - unfold delete_post. unfold_handler. rewrite Hid. hsimpl.
    cbn [set_posts posts]. rewrite lookup_insert_eq. hsimpl.
    cbn [newPost post_user]. rewrite String.eqb_refl. cbn [negb]. hsimpl.
    cbn. f_equal. destruct db as [us prs ps]. unfold set_posts.
    cbn [users profiles posts] in *. f_equal.
    rewrite delete_insert_eq. now apply delete_id.
Qed.

Lemma create_read_delete_post_witness :
  let db := Examples.db_posts [] in
  let b : gmap string bval := {[ "text" := BString "hello" ]} in
  let user := {| u_name := "Alice"; u_avatar := "a.png" |} in
  (Examples.hex24 Examples.alice = true /\ Examples.hex24 Examples.post1 = true /\
   field b "text" = BString "hello" /\ "hello" <> EmptyString /\
   users db !! Examples.alice = Some user /\
   posts db !! Examples.post1 = None) /\
  exists db1,
    run (create_post Examples.hex24 Examples.alice b Examples.post1) db =
      (Sent {| status := 200%nat;
               res_body := Json (VPost Examples.post1 (Examples.a_post [] [])) |}, db1) /\
    run (get_post Examples.hex24 Examples.post1) db1 =
      (Sent {| status := 200%nat;
               res_body := Json (VPost Examples.post1 (Examples.a_post [] [])) |}, db1) /\
    run (delete_post Examples.hex24 Examples.alice Examples.post1) db1 =
      (Sent {| status := 200%nat;
               res_body := JsonObject [("msg", VString "Post removed")] |}, db).
Proof.
  intros db b user.
  assert (H1 : Examples.hex24 Examples.alice = true) by reflexivity.
  assert (H2 : Examples.hex24 Examples.post1 = true) by reflexivity.
  assert (H3 : field b "text" = BString "hello") by (vm_compute; reflexivity).
  assert (H3' : "hello" <> EmptyString) by discriminate.
  assert (H4 : users db !! Examples.alice = Some user) by (vm_compute; reflexivity).
  assert (H5 : posts db !! Examples.post1 = None) by (vm_compute; reflexivity).
  split; [repeat split; assumption|].
  exact (create_read_delete_post Examples.hex24 db Examples.alice Examples.post1
           b "hello" user H1 H2 H3 H3' H4 H5).
Defined.

(** ** Deleting an account *)

(** X14: deleting an account removes the caller's user record, profile and
    posts, and nothing else: a post of another author stays exactly as it
    was, with the likes and comments the caller left on it. *)
Theorem delete_account_effect
  (valid_oid : string -> bool) (db : Db) (caller : string) :
  valid_oid caller = true ->
  exists db',
    run (delete_account valid_oid caller) db =
      (Sent {| status := 200%nat;
               res_body := JsonObject [("msg", VString "User deleted")] |}, db') /\
    users db' = delete caller (users db) /\
    profiles db' = delete caller (profiles db) /\
    (forall id post,
       posts db' !! id = Some post <->
       posts db !! id = Some post /\ post_user post <> caller).
Proof.
  intros Hcaller. unfold delete_account. unfold_handler. rewrite Hcaller. hsimpl.
  eexists. split; [reflexivity|].
  cbn [set_posts set_profiles set_users users profiles posts].
  split; [reflexivity|]. split; [reflexivity|].
  intros id post. rewrite map_lookup_filter_Some. cbn [snd].
  now rewrite String.eqb_neq.
Qed.

Lemma delete_account_effect_witness :
  let post :=
    {| post_user := Examples.alice; post_text := BString "hello";
       post_name := "Alice"; post_avatar := "a.png";
       likes := [Examples.like_of Examples.bob];
       comments := [Examples.a_comment Examples.comment1 Examples.bob "first"] |} in
  let db := Examples.db_posts [(Examples.post1, post)] in
  Examples.hex24 Examples.bob = true /\
  exists db',
    run (delete_account Examples.hex24 Examples.bob) db =
      (Sent {| status := 200%nat;
               res_body := JsonObject [("msg", VString "User deleted")] |}, db') /\
    posts db' !! Examples.post1 = Some post.
Proof.
  intros post db.
  assert (Hb : Examples.hex24 Examples.bob = true) by reflexivity.
  split; [exact Hb|].
  destruct (delete_account_effect Examples.hex24 db Examples.bob Hb)
    as (db' & Hrun & _ & _ & Hposts).
  exists db'. split; [exact Hrun|].
  apply Hposts. split; [vm_compute; reflexivity|discriminate].
Defined.

(** ** Upserting a profile twice *)

Lemma store_independent_ret {A} (a : A) : store_independent (ret a).
Proof. exists (Normal a). reflexivity. Qed.

Lemma store_independent_throw {A} e : store_independent (@throw A e).
Proof. exists (Throw e). reflexivity. Qed.

Lemma store_independent_bind {A B} (m : M A) (k : A -> M B) :
  store_independent m -> (forall a, store_independent (k a)) ->
  store_independent (bind m k).
Proof.
  intros [[a|e] Hm] Hk.
  - destruct (Hk a) as [c Hc]. exists c. intros db. unfold bind.
    now rewrite Hm, Hc.
  - exists (Throw e). intros db. unfold bind. now rewrite Hm.
Qed.

Lemma store_independent_normalize_value normalize v :
  store_independent (normalize_value normalize v).
Proof.
  destruct v as [|s|l]; cbn [normalize_value];
    try apply store_independent_throw.
  destruct (normalize s); [apply store_independent_ret|apply store_independent_throw].
Qed.

Lemma store_independent_build normalize caller b :
  store_independent (build_profileFields normalize caller b).
Proof.
  unfold build_profileFields.
  repeat (apply store_independent_bind; [|intros ?]);
    try apply store_independent_ret.
  - destruct (field b "website") as [|s|l]; cbn [website_field];
      [apply store_independent_ret| |apply store_independent_normalize_value].
    destruct (String.eqb s EmptyString);
      [apply store_independent_ret|apply store_independent_normalize_value].
  - destruct (field b "skills"); cbn [skills_field];
      [apply store_independent_throw|apply store_independent_ret
      |apply store_independent_ret].
  - destruct (field b "youtube") as [|s|[|? ?]]; cbn [social_link];
      try apply store_independent_ret;
      try (destruct (String.eqb s EmptyString); [apply store_independent_ret|]);
      (apply store_independent_bind;
       [apply store_independent_normalize_value|intros ?; apply store_independent_ret]).
  - destruct (field b "twitter") as [|s|[|? ?]]; cbn [social_link];
      try apply store_independent_ret;
      try (destruct (String.eqb s EmptyString); [apply store_independent_ret|]);
      (apply store_independent_bind;
       [apply store_independent_normalize_value|intros ?; apply store_independent_ret]).
  - destruct (field b "instagram") as [|s|[|? ?]]; cbn [social_link];
      try apply store_independent_ret;
      try (destruct (String.eqb s EmptyString); [apply store_independent_ret|]);
      (apply store_independent_bind;
       [apply store_independent_normalize_value|intros ?; apply store_independent_ret]).
  - destruct (field b "linkedin") as [|s|[|? ?]]; cbn [social_link];
      try apply store_independent_ret;
      try (destruct (String.eqb s EmptyString); [apply store_independent_ret|]);
      (apply store_independent_bind;
       [apply store_independent_normalize_value|intros ?; apply store_independent_ret]).
  - destruct (field b "facebook") as [|s|[|? ?]]; cbn [social_link];
      try apply store_independent_ret;
      try (destruct (String.eqb s EmptyString); [apply store_independent_ret|]);
      (apply store_independent_bind;
       [apply store_independent_normalize_value|intros ?; apply store_independent_ret]).
Qed.

(** An upsert either fails in the same way on every store, or stores the
    same fields on every store. *)
Lemma upsert_profile_run valid_oid normalize caller b :
  (exists o, answered_200 o = false /\
     forall db, run (upsert_profile valid_oid normalize caller b) db = (o, db))
  \/
  (exists pf,
     forall db, run (upsert_profile valid_oid normalize caller b) db =
       (Sent {| status := 200%nat; res_body := Json (VProfile (upserted pf caller db)) |},
        set_profiles (insert caller (upserted pf caller db)) db)).
Proof.
  unfold upsert_profile.
  destruct (negb _).
  { left. eexists. split; [|intros db; reflexivity]. reflexivity. }
  destruct (store_independent_build normalize caller b) as [[pf|e] Hb].
  - destruct (valid_oid caller) eqn:Hc.
    + right. exists pf. intros db. rewrite run_bind, Hb.
      unfold_handler. rewrite Hc. hsimpl. unfold upserted.
      destruct (profiles db !! caller); reflexivity.
    + left. eexists. split; [|intros db; rewrite run_bind, Hb;
        unfold_handler; rewrite Hc; reflexivity]. reflexivity.
  - left. exists (Unhandled e). split; [reflexivity|].
    intros db. now rewrite run_bind, Hb.
Qed.

Lemma build_profileFields_plain normalize caller b db pf db' :
  build_profileFields normalize caller b db = (Normal pf, db') ->
  pf_user pf = caller /\ pf_status pf = field b "status" /\
  pf_company pf = field b "company" /\ pf_location pf = field b "location" /\
  pf_bio pf = field b "bio" /\ pf_githubusername pf = field b "githubusername".
Proof.
  unfold build_profileFields, bind, ret.
  repeat match goal with
    | |- context [match ?m db with _ => _ end] =>
        destruct (m db) as [[?|?] ?]; try discriminate
    | |- context [match ?m ?d with _ => _ end] =>
        destruct (m d) as [[?|?] ?]; try discriminate
    end.
  intros [= <- _]. repeat split.
Qed.

(** X15: the last upsert wins.  Take a valid upsert (it passes the
    validation, its text fields are strings or absent, the normaliser does
    not throw on its links).  Sent after any other upsert of the same
    caller, it is answered 200 and leaves the store that it would leave
    had the other never been sent: the stored profile has the fields built
    from its own body and nothing of the earlier one, and the experience
    and education lists that the caller had before both. *)
Theorem upsert_last_write_wins
  (valid_oid : string -> bool) (normalize : string -> option string)
  (db : Db) (caller : string) (b1 b2 : gmap string bval) :
  valid_oid caller = true ->
  validationResult [("status", "Status is required");
                    ("skills", "Skills are required")] b2 = [] ->
  (forall k, In k plain_fields -> text_or_absent (field b2 k)) ->
  (forall k, In k links -> link_normalisable normalize (field b2 k)) ->
  let db1 := serve valid_oid normalize (UpsertProfile caller b1) db in
  exists pf2,
    (forall d, build_profileFields normalize caller b2 d = (Normal pf2, d)) /\
    pf_user pf2 = caller /\ pf_status pf2 = field b2 "status" /\
    pf_company pf2 = field b2 "company" /\ pf_location pf2 = field b2 "location" /\
    pf_bio pf2 = field b2 "bio" /\ pf_githubusername pf2 = field b2 "githubusername" /\
    exists profile2,
      fields profile2 = pf2 /\
      experience profile2 =
        match profiles db !! caller with Some old => experience old | None => [] end /\
      education profile2 =
        match profiles db !! caller with Some old => education old | None => [] end /\
      run (upsert_profile valid_oid normalize caller b2) db1 =
        (Sent {| status := 200%nat; res_body := Json (VProfile profile2) |},
         set_profiles (insert caller profile2) db).
Proof.
  intros Hcaller Hvalid _ Hlinks db1.
  destruct (upsert_profile_stores valid_oid normalize db caller b2
              Hcaller Hvalid Hlinks) as (p & Hrun & _).
  destruct (store_independent_build normalize caller b2) as [[pf2|e] Hb].
  2: { exfalso. revert Hrun. unfold upsert_profile. rewrite Hvalid.
       cbn [errors_isEmpty negb]. rewrite run_bind, Hb. discriminate. }
  assert (Hany : forall d,
            run (upsert_profile valid_oid normalize caller b2) d =
              (Sent {| status := 200%nat;
                       res_body := Json (VProfile (upserted pf2 caller d)) |},
               set_profiles (insert caller (upserted pf2 caller d)) d)).
  { intros d. unfold upsert_profile. rewrite Hvalid. cbn [errors_isEmpty negb].
    rewrite run_bind, Hb. unfold_handler. rewrite Hcaller. hsimpl.
    unfold upserted. destruct (profiles d !! caller); reflexivity. }
  exists pf2. split; [exact Hb|].
  destruct (build_profileFields_plain normalize caller b2 db pf2 db (Hb db))
    as (Hu & Hs & Hc & Hl & Hbio & Hg).
  repeat (split; [assumption|]).
  exists (upserted pf2 caller db).
  split; [unfold upserted; destruct (profiles db !! caller); reflexivity|].
  split; [unfold upserted; destruct (profiles db !! caller); reflexivity|].
  split; [unfold upserted; destruct (profiles db !! caller); reflexivity|].
  rewrite Hany. subst db1. unfold serve. cbn [handler].
  destruct (upsert_profile_run valid_oid normalize caller b1)
    as [(o1 & _ & H1)|(pf1 & H1)]; rewrite H1; cbn [snd]; [reflexivity|].
  assert (Hp : upserted pf2 caller
                 (set_profiles (insert caller (upserted pf1 caller db)) db)
               = upserted pf2 caller db).
  { unfold upserted at 1 3. cbn [set_profiles profiles].
    rewrite lookup_insert_eq. unfold upserted.
    destruct (profiles db !! caller); reflexivity. }
  rewrite Hp. f_equal.
  destruct db as [us prs ps]. unfold set_profiles.
  cbn [users profiles posts]. f_equal. apply insert_insert_eq.
Qed.

Lemma upsert_last_write_wins_witness :
  let db := Examples.db_profile (Examples.a_profile [Examples.an_experience Examples.exp1] []) in
  let b1 : gmap string bval :=
    {[ "status" := BString "student"; "skills" := BString "c"; "bio" := BString "hi" ]} in
  let b2 := Examples.minimal_profile_body in
  let db1 := serve Examples.hex24 Examples.https_prefix
               (UpsertProfile Examples.alice b1) db in
  (Examples.hex24 Examples.alice = true /\
   validationResult [("status", "Status is required");
                     ("skills", "Skills are required")] b2 = [] /\
   (forall k, In k plain_fields -> text_or_absent (field b2 k)) /\
   (forall k, In k links -> link_normalisable Examples.https_prefix (field b2 k))) /\
  (pf_bio <$> (fields <$> (profiles db1 !! Examples.alice)) = Some (BString "hi")) /\
  run (upsert_profile Examples.hex24 Examples.https_prefix Examples.alice b2) db1 =
    (Sent {| status := 200%nat;
             res_body := Json (VProfile
               (Examples.a_profile [Examples.an_experience Examples.exp1] [])) |},
     db).
Proof.
  intros db b1 b2 db1.
  assert (H1 : Examples.hex24 Examples.alice = true) by reflexivity.
  assert (H2 : validationResult [("status", "Status is required");
                                 ("skills", "Skills are required")] b2 = [])
    by (vm_compute; reflexivity).
  assert (H3 : forall k, In k plain_fields -> text_or_absent (field b2 k)).
  { intros k [<-|[<-|[<-|[<-|[<-|[]]]]]]; unfold text_or_absent.
    - right. exists "dev". vm_compute. reflexivity.
    - left. vm_compute. reflexivity.
    - left. vm_compute. reflexivity.
    - left. vm_compute. reflexivity.
    - left. vm_compute. reflexivity. }
  assert (H4 : forall k, In k links ->
                 link_normalisable Examples.https_prefix (field b2 k)).
  { intros k [<-|[<-|[<-|[<-|[<-|[<-|[]]]]]]]; left; vm_compute; reflexivity. }
  split; [repeat split; assumption|].
  split; [vm_compute; reflexivity|].
  destruct (upsert_last_write_wins Examples.hex24 Examples.https_prefix db
              Examples.alice b1 b2 H1 H2 H3 H4)
    as (pf2 & Hb & _ & _ & _ & _ & _ & _ & profile2 & Hf & He & Hd & Hrun).
  fold db1 in Hrun. rewrite Hrun.
  assert (Hpf : pf2 = fields (Examples.a_profile [] [])).
  { specialize (Hb db). vm_compute in Hb. injection Hb as <-. reflexivity. }
  assert (Hp2 : profile2 = Examples.a_profile [Examples.an_experience Examples.exp1] []).
  { destruct profile2 as [f ex ed]. cbn [fields experience education] in *.
    subst f. rewrite Hpf. vm_compute in He, Hd. subst ex ed. reflexivity. }
  rewrite Hp2. vm_compute. reflexivity.
Defined.

(** ** Adding entries and comments *)

(** X16: when a request to add an experience (an education) entry is
    answered 200, the caller had a profile, and the profile answered and
    stored is that profile with one more entry in front of the list: the
    entry made of the fields of the body under the identifier given to it.
    The older entries keep their order; the other list and the fields of
    the profile are as they were.  For a caller without a profile, a
    request whose required fields are non-empty strings is answered 500
    and nothing is stored. *)
Theorem add_entry_puts_it_first
  (valid_oid : string -> bool) (db : Db) (caller new_id : string)
  (b : gmap string bval) :
  (forall resp db1,
     run (add_experience valid_oid caller b new_id) db = (Sent resp, db1) ->
     status resp = 200%nat ->
     exists profile,
       profiles db !! caller = Some profile /\
       let newExp :=
         {| exp_id := new_id;
            exp_title := field b "title"; exp_company := field b "company";
            exp_location := field b "location"; exp_from := field b "from";
            exp_to := field b "to"; exp_current := field b "current";
            exp_description := field b "description" |} in
       let profile' :=
         {| fields := fields profile;
            experience := newExp :: experience profile;
            education := education profile |} in
       resp = {| status := 200%nat; res_body := Json (VProfile profile') |} /\
       db1 = set_profiles (insert caller profile') db)
  /\
  (forall resp db1,
     run (add_education valid_oid caller b new_id) db = (Sent resp, db1) ->
     status resp = 200%nat ->
     exists profile,
       profiles db !! caller = Some profile /\
       let newEdu :=
         {| edu_id := new_id;
            edu_school := field b "school"; edu_degree := field b "degree";
            edu_fieldofstudy := field b "fieldofstudy"; edu_from := field b "from";
            edu_to := field b "to"; edu_current := field b "current";
            edu_description := field b "description" |} in
       let profile' :=
         {| fields := fields profile;
            experience := experience profile;
            education := newEdu :: education profile |} in
       resp = {| status := 200%nat; res_body := Json (VProfile profile') |} /\
       db1 = set_profiles (insert caller profile') db)
  /\
  (valid_oid caller = true -> profiles db !! caller = None ->
   ((forall k, In k ["title"; "company"; "from"] ->
       exists s, field b k = BString s /\ s <> EmptyString) ->
    run (add_experience valid_oid caller b new_id) db =
      (Sent {| status := 500%nat; res_body := Text "Server error" |}, db))
   /\
   ((forall k, In k ["school"; "degree"; "fieldofstudy"; "from"] ->
       exists s, field b k = BString s /\ s <> EmptyString) ->
    run (add_education valid_oid caller b new_id) db =
      (Sent {| status := 500%nat; res_body := Text "Server error" |}, db))).
Proof.
  split; [|split].
  - intros resp db1 Hrun Hok.
    destruct (add_experience_200 valid_oid db db1 caller new_id b resp Hrun Hok)
      as (profile & _ & Hprofile & Hresp & Hdb1).
    exists profile. split; [exact Hprofile|]. split; [exact Hresp|exact Hdb1].
  - intros resp db1 Hrun Hok.
    destruct (add_education_200 valid_oid db db1 caller new_id b resp Hrun Hok)
      as (profile & _ & Hprofile & Hresp & Hdb1).
    exists profile. split; [exact Hprofile|]. split; [exact Hresp|exact Hdb1].
  - intros Hcaller Hnone. split; intros Hfilled.
    + assert (Hvalid : validationResult [("title", "Title is required");
                                         ("company", "Company is required");
                                         ("from", "From date is required")] b = []).
      { apply validationResult_filled.
        intros name msg [[= <- <-]|[[= <- <-]|[[= <- <-]|[]]]];
          apply Hfilled; cbn; tauto. }
      unfold add_experience. rewrite Hvalid. cbn [errors_isEmpty negb].
      unfold_handler. rewrite Hcaller. hsimpl. rewrite Hnone. reflexivity.
    + assert (Hvalid : validationResult [("school", "School is required");
                                         ("degree", "Degree is required");
                                         ("fieldofstudy", "Field of study is required");
                                         ("from", "from date is required")] b = []).
      { apply validationResult_filled.
        intros name msg [[= <- <-]|[[= <- <-]|[[= <- <-]|[[= <- <-]|[]]]]];
          apply Hfilled; cbn; tauto. }
      unfold add_education. rewrite Hvalid. cbn [errors_isEmpty negb].
      unfold_handler. rewrite Hcaller. hsimpl. rewrite Hnone. reflexivity.
Qed.

Lemma add_entry_puts_it_first_witness :
  let profile := Examples.a_profile [Examples.an_experience Examples.exp1] [] in
  let db := Examples.db_profile profile in
  let b : gmap string bval :=
    {[ "title" := BString "Engineer"; "company" := BString "Acme";
       "from" := BString "2019-01-01" ]} in
  let profile1 :=
    Examples.a_profile [Examples.an_experience Examples.exp2;
                        Examples.an_experience Examples.exp1] [] in
  let resp := {| status := 200%nat; res_body := Json (VProfile profile1) |} in
  let db1 := Examples.db_profile profile1 in
  (run (add_experience Examples.hex24 Examples.alice b Examples.exp2) db = (Sent resp, db1) /\
   status resp = 200%nat) /\
  exists profile0,
    profiles db !! Examples.alice = Some profile0 /\
    resp = {| status := 200%nat;
              res_body := Json (VProfile
                {| fields := fields profile0;
                   experience := Examples.an_experience Examples.exp2
                                 :: experience profile0;
                   education := education profile0 |}) |}.
Proof.
  intros profile db b profile1 resp db1.
  assert (H1 : run (add_experience Examples.hex24 Examples.alice b Examples.exp2) db
               = (Sent resp, db1)) by (vm_compute; reflexivity).
  assert (H2 : status resp = 200%nat) by reflexivity.
  split; [split; assumption|].
  destruct (proj1 (add_entry_puts_it_first Examples.hex24 db Examples.alice
                     Examples.exp2 b) resp db1 H1 H2)
    as (profile0 & Hp & Hresp & _).
  exists profile0. split; [exact Hp|].
  rewrite Hresp. vm_compute. reflexivity.
Defined.

(** X17: a comment request whose text is a non-empty string, on an
    existing post, by a caller with a user record, puts the new comment in
    front, with the name and avatar of that record, and answers the new
    list.  When the post or the user record is missing, or the post
    identifier is malformed, the answer is 500 (not 404) and nothing is
    stored. *)
Theorem add_comment_spec
  (valid_oid : string -> bool) (db : Db) (caller id new_id : string)
  (b : gmap string bval) (text : string) :
  valid_oid caller = true ->
  field b "text" = BString text ->
  text <> EmptyString ->
  (forall user post,
     valid_oid id = true -> users db !! caller = Some user ->
     posts db !! id = Some post ->
     let newComment :=
       {| comment_id := new_id; comment_user := caller;
          comment_text := BString text;
          comment_name := u_name user; comment_avatar := u_avatar user |} in
     run (add_comment valid_oid caller id b new_id) db =
       (Sent {| status := 200%nat;
                res_body := Json (VComments (newComment :: comments post)) |},
        set_posts (insert id (with_comments (newComment :: comments post) post)) db))
  /\
  (valid_oid id = false \/ users db !! caller = None \/ posts db !! id = None ->
   run (add_comment valid_oid caller id b new_id) db =
     (Sent {| status := 500%nat; res_body := Text "Server error" |}, db)).
Proof.
  intros Hcaller Htext Hne.
  pose proof (text_validated b text Htext Hne) as Hvalid. split.
  - intros user post Hid Huser Hpost newComment. subst newComment.
    rewrite <- Htext.
    exact (add_comment_success valid_oid db caller id new_id b user post
             Hcaller Hid Hvalid Huser Hpost).
  - intros Hmissing. unfold add_comment. rewrite Hvalid. cbn [errors_isEmpty negb].
    unfold_handler. rewrite Hcaller. hsimpl.
    destruct (valid_oid id) eqn:Hid; hsimpl; [|reflexivity].
    destruct (users db !! caller) eqn:Hu; hsimpl; [|reflexivity].
    destruct (posts db !! id) eqn:Hp; hsimpl; [|reflexivity].
    destruct Hmissing as [H|[H|H]]; discriminate H.
Qed.

Lemma add_comment_spec_witness :
  let post := Examples.a_post [] [Examples.a_comment Examples.comment1 Examples.bob "first"] in
  let db := Examples.db_posts [(Examples.post1, post)] in
  let b : gmap string bval := {[ "text" := BString "nice" ]} in
  let newComment :=
    {| comment_id := Examples.comment2; comment_user := Examples.alice;
       comment_text := BString "nice";
       comment_name := "Alice"; comment_avatar := "a.png" |} in
  (Examples.hex24 Examples.alice = true /\
   field b "text" = BString "nice" /\ "nice" <> EmptyString) /\
  run (add_comment Examples.hex24 Examples.alice Examples.post1 b Examples.comment2) db =
    (Sent {| status := 200%nat;
             res_body := Json (VComments (newComment :: comments post)) |},
     set_posts (insert Examples.post1
                  (with_comments (newComment :: comments post) post)) db) /\
  run (add_comment Examples.hex24 Examples.alice Examples.post2 b Examples.comment2) db =
    (Sent {| status := 500%nat; res_body := Text "Server error" |}, db) /\
  run (add_comment Examples.hex24 Examples.alice "nope" b Examples.comment2) db =
    (Sent {| status := 500%nat; res_body := Text "Server error" |}, db).
Proof.
  intros post db b newComment.
  assert (H1 : Examples.hex24 Examples.alice = true) by reflexivity.
  assert (H2 : field b "text" = BString "nice") by (vm_compute; reflexivity).
  assert (H3 : "nice" <> EmptyString) by discriminate.
  split; [repeat split; assumption|]. split; [|split].
  - apply (proj1 (add_comment_spec Examples.hex24 db Examples.alice Examples.post1
                    Examples.comment2 b "nice" H1 H2 H3)
             {| u_name := "Alice"; u_avatar := "a.png" |} post);
      [reflexivity|vm_compute; reflexivity|vm_compute; reflexivity].
  - apply (add_comment_spec Examples.hex24 db Examples.alice Examples.post2
             Examples.comment2 b "nice" H1 H2 H3).
    right. right. vm_compute. reflexivity.
  - apply (add_comment_spec Examples.hex24 db Examples.alice "nope"
             Examples.comment2 b "nice" H1 H2 H3).
    left. reflexivity.
Defined.

(** ** The skills of a profile *)

Lemma list_ascii_of_string_app a b :
  list_ascii_of_string (a ++ b)%string =
  list_ascii_of_string a ++ list_ascii_of_string b.
Proof.
  induction a as [|c a IH]; [reflexivity|].
  change (c :: list_ascii_of_string (a ++ b)%string =
          c :: (list_ascii_of_string a ++ list_ascii_of_string b)).
  now rewrite IH.
Qed.

Lemma has_comma_app a b : has_comma (a ++ b)%string <-> has_comma a \/ has_comma b.
Proof. unfold has_comma. rewrite list_ascii_of_string_app. apply in_app_iff. Qed.

Lemma trim_no_comma s : ~ has_comma s -> ~ has_comma (Js.trim s).
Proof.
  intros Hs Ht. apply Hs.
  destruct (trim_spec s) as (a & z & Heq & _).
  rewrite Heq. apply has_comma_app. right. apply has_comma_app. now left.
Qed.

Lemma split_comma_length s :
  length (Js.split_comma s) = S (count_commas s).
Proof.
  induction s as [|c r IH]; [reflexivity|].
  cbn [Js.split_comma count_commas].
  destruct (Ascii.eqb c ","); cbn [length Nat.add].
  - now rewrite IH.
  - destruct (Js.split_comma r); cbn [length] in *; [discriminate IH|exact IH].
Qed.

Lemma Forall2_map_right {A B} (P : A -> B -> Prop) (f : A -> B) (l : list A) :
  (forall x, P x (f x)) -> Forall2 P l (map f l).
Proof. intros H. induction l; cbn [map]; constructor; auto. Qed.

(** X18: the skills stored for a [skills] string [s].  The string is cut
    at its commas into segments (joined by commas they give [s] back, and
    none holds a comma), empty segments included, so there is one more
    skill than there are commas.  The skill stored for a segment is one
    space followed by the segment without the white space at its two ends. *)
Theorem skills_of_a_string (s : string) (db : Db) :
  exists segments skills,
    skills_field (BString s) db = (Normal skills, db) /\
    String.concat "," segments = s /\
    Forall (fun seg => ~ has_comma seg) segments /\
    length skills = S (count_commas s) /\
    Forall2
      (fun seg skill =>
         exists a t z,
           seg = (a ++ t ++ z)%string /\ all_white a /\ all_white z /\
           (forall c r, t = String c r -> Js.is_white_space c = false) /\
           (forall u c, t = (u ++ String c EmptyString)%string ->
                        Js.is_white_space c = false) /\
           skill = String " " t)
      segments skills.
Proof.
  exists (Js.split_comma s),
         (map (fun skill => (" " ++ Js.trim skill)%string) (Js.split_comma s)).
  split; [reflexivity|]. split; [apply split_comma_concat|].
  split; [apply split_comma_no_comma|].
  split; [rewrite length_map; apply split_comma_length|].
  apply Forall2_map_right. intros seg.
  destruct (trim_spec seg) as (a & z & Heq & Ha & Hz & Hhead & Hlast).
  exists a, (Js.trim seg), z. repeat split; assumption.
Qed.

(** An empty segment is kept, as a skill made of one space. *)
Example skills_with_empty_segment :
  forall db, skills_field (BString "js,,node, ") db
             = (Normal [" js"; " "; " node"; " "], db).
Proof. reflexivity. Qed.

(** ** Liking and unliking twice *)

(** X19: after a like that was answered 200, a second like of the same
    caller on the same post is answered 400 and leaves the store. *)
Theorem second_like_refused
  (valid_oid : string -> bool) (db : Db) (caller id : string) (post : Post) :
  valid_oid id = true ->
  posts db !! id = Some post ->
  ~ In caller (map like_user (likes post)) ->
  exists db1 likes1,
    run (like_post valid_oid caller id) db =
      (Sent {| status := 200%nat; res_body := Json (VLikes likes1) |}, db1) /\
    length likes1 = S (length (likes post)) /\
    run (like_post valid_oid caller id) db1 =
      (Sent {| status := 400%nat;
               res_body := JsonObject [("msg", VString "Post already liked")] |}, db1).
Proof.
  intros Hid Hpost Hfresh.
  eexists. eexists.
  split; [exact (like_post_fresh valid_oid db caller id post Hid Hpost Hfresh)|].
  split; [reflexivity|].
  eapply like_post_already_liked; [exact Hid| |].
  - cbn [set_posts posts]. apply lookup_insert_eq.
  - cbn. now left.
Qed.

Lemma second_like_refused_witness :
  let post := Examples.a_post [] [] in
  let db := Examples.db_posts [(Examples.post1, post)] in
  (Examples.hex24 Examples.post1 = true /\
   posts db !! Examples.post1 = Some post /\
   ~ In Examples.bob (map like_user (likes post))) /\
  exists db1 likes1,
    run (like_post Examples.hex24 Examples.bob Examples.post1) db =
      (Sent {| status := 200%nat; res_body := Json (VLikes likes1) |}, db1) /\
    length likes1 = 1%nat /\
    run (like_post Examples.hex24 Examples.bob Examples.post1) db1 =
      (Sent {| status := 400%nat;
               res_body := JsonObject [("msg", VString "Post already liked")] |}, db1).
Proof.
  intros post db.
  assert (Hid : Examples.hex24 Examples.post1 = true) by reflexivity.
  assert (Hpost : posts db !! Examples.post1 = Some post) by (vm_compute; reflexivity).
  assert (Hfresh : ~ In Examples.bob (map like_user (likes post))) by (intros []).
  split; [repeat split; assumption|].
  exact (second_like_refused Examples.hex24 db Examples.bob Examples.post1 post
           Hid Hpost Hfresh).
Defined.

(** X20: in a store reached by serving requests, after an unlike that was
    answered 200 the caller is no longer among the likes of the post, and
    a second unlike is answered 400.  (In a store where a user had two
    likes on a post, the second unlike would succeed.) *)
Theorem second_unlike_refused
  (valid_oid : string -> bool) (normalize : string -> option string)
  (db : Db) (caller id : string) (post : Post) :
  reachable valid_oid normalize db ->
  valid_oid id = true ->
  posts db !! id = Some post ->
  In caller (map like_user (likes post)) ->
  exists db1 likes1,
    run (unlike_post valid_oid caller id) db =
      (Sent {| status := 200%nat; res_body := Json (VLikes likes1) |}, db1) /\
    ~ In caller (map like_user likes1) /\
    S (length likes1) = length (likes post) /\
    run (unlike_post valid_oid caller id) db1 =
      (Sent {| status := 400%nat;
               res_body := JsonObject [("msg", VString "Post has not yet been liked")] |},
       db1).
Proof.
  intros Hreach Hid Hpost Hin.
  pose proof (reachable_likes_unique valid_oid normalize db Hreach id post Hpost)
    as Hnd.
  destruct (unlike_post_liked valid_oid db caller id post Hid Hpost Hin)
    as (before & like & after & Hl & Hu & Hb & Hrun).
  assert (Hout : ~ In caller (map like_user (before ++ after))).
  { rewrite Hl, map_app in Hnd. cbn [map] in Hnd.
    apply NoDup_app in Hnd as (_ & _ & Hrest).
    apply NoDup_cons in Hrest as [Hnotin _].
    rewrite map_app, in_app_iff. intros [H|H]; [exact (Hb H)|].
    apply Hnotin. rewrite Hu. apply list_elem_of_In. exact H. }
  exists (set_posts (insert id (with_likes (before ++ after) post)) db),
         (before ++ after).
  split; [exact Hrun|]. split; [exact Hout|]. split.
  - rewrite Hl, !length_app. cbn [length]. lia.
  - apply (unlike_post_not_liked valid_oid _ caller id
             (with_likes (before ++ after) post) Hid); [|exact Hout].
    cbn [set_posts posts]. apply lookup_insert_eq.
Qed.

Lemma second_unlike_refused_witness :
  let db :=
    serve Examples.hex24 Examples.https_prefix
      (LikePost Examples.bob Examples.post1)
      (serve Examples.hex24 Examples.https_prefix
         (CreatePost Examples.alice {[ "text" := BString "hello" ]} Examples.post1)
         (Examples.db_posts [])) in
  let post := Examples.a_post [Examples.like_of Examples.bob] [] in
  (reachable Examples.hex24 Examples.https_prefix db /\
   Examples.hex24 Examples.post1 = true /\
   posts db !! Examples.post1 = Some post /\
   In Examples.bob (map like_user (likes post))) /\
  exists db1 likes1,
    run (unlike_post Examples.hex24 Examples.bob Examples.post1) db =
      (Sent {| status := 200%nat; res_body := Json (VLikes likes1) |}, db1) /\
    ~ In Examples.bob (map like_user likes1) /\
    S (length likes1) = length (likes post) /\
    run (unlike_post Examples.hex24 Examples.bob Examples.post1) db1 =
      (Sent {| status := 400%nat;
               res_body := JsonObject [("msg", VString "Post has not yet been liked")] |},
       db1).
Proof.
  intros db post.
  assert (Hreach : reachable Examples.hex24 Examples.https_prefix db).
  { do 2 apply reach_serve. apply reach_init. reflexivity. }
  assert (Hid : Examples.hex24 Examples.post1 = true) by reflexivity.
  assert (Hpost : posts db !! Examples.post1 = Some post) by (vm_compute; reflexivity).
  assert (Hin : In Examples.bob (map like_user (likes post))) by (left; reflexivity).
  split; [repeat split; assumption|].
  exact (second_unlike_refused Examples.hex24 Examples.https_prefix db Examples.bob
           Examples.post1 post Hreach Hid Hpost Hin).
Defined.

(** Without the invariant: two likes of one user, two unlikes answered 200. *)
Example unlike_twice_on_duplicates :
  let post := Examples.a_post [Examples.like_of Examples.bob; Examples.like_of Examples.bob] [] in
  let db := Examples.db_posts [(Examples.post1, post)] in
  let db1 := snd (run (unlike_post Examples.hex24 Examples.bob Examples.post1) db) in
  fst (run (unlike_post Examples.hex24 Examples.bob Examples.post1) db1)
  = Sent {| status := 200%nat; res_body := Json (VLikes []) |}.
Proof. vm_compute. reflexivity. Qed.

(** ** Whose entries unlike and delete-comment remove *)

Section SpliceAtIndex.
Context {A : Type} (f : A -> string).

Lemma indexOf_from_first k x l1 y l2 :
  ~ In x (map f l1) -> f y = x ->
  Js.indexOf_from k x (map f (l1 ++ y :: l2)) = k + Z.of_nat (length l1).
Proof.
  revert k. induction l1 as [|z l1 IH]; intros k Hn Hy.
  - cbn [app map Js.indexOf_from length]. rewrite Hy, String.eqb_refl. cbn. lia.
  - cbn [app map Js.indexOf_from length In] in *.
    destruct (String.eqb_spec (f z) x) as [Heq|Hne]; [tauto|].
    rewrite IH by tauto. lia.
Qed.

(** Removing the entry at the index of [caller] removes an entry of
    [caller]: the entries of the others are all kept, in their order. *)
Lemma splice_index_keeps_others caller l :
  In caller (map f l) ->
  List.filter (fun x => negb (String.eqb (f x) caller))
              (Js.splice (Js.indexOf caller (map f l)) 1 l)
  = List.filter (fun x => negb (String.eqb (f x) caller)) l.
Proof.
  intros Hin.
  destruct (indexOf_from_present f 0 caller l Hin)
    as (l1 & y & l2 & -> & Hy & _ & Hi).
  unfold Js.indexOf. rewrite Hi, Z.add_0_l, splice_one_at.
  rewrite !List.filter_app. cbn [List.filter].
  now rewrite Hy, String.eqb_refl.
Qed.
End SpliceAtIndex.

(** X21: unlike and delete-comment never remove an entry of another user
    than the caller: whatever the request and its answer, the likes (the
    comments) that others left on any post are all still there, in their
    order. *)
Theorem entries_of_others_never_removed
  (valid_oid : string -> bool) (normalize : string -> option string)
  (db : Db) (caller id cid id' : string) (post : Post) :
  posts db !! id' = Some post ->
  (exists post',
     posts (serve valid_oid normalize (UnlikePost caller id) db) !! id' = Some post' /\
     likes_of_others caller (likes post') = likes_of_others caller (likes post))
  /\
  (exists post',
     posts (serve valid_oid normalize (DeleteComment caller id cid) db) !! id'
       = Some post' /\
     comments_of_others caller (comments post') =
     comments_of_others caller (comments post)).
Proof.
  intros Hpost. unfold serve, run. split; request_paths; posts_lookup id';
    try (exists post; split; [assumption|reflexivity]);
    (eexists; split; [reflexivity|]);
    match goal with H : posts db !! id' = Some ?p |- _ =>
      replace p with post in * by congruence end.
  - cbn [with_likes likes]. apply (splice_index_keeps_others like_user).
    match goal with H : (_ =? 0)%nat = false |- _ =>
      destruct (in_dec string_dec caller (map like_user (likes post))) as [Hin|Hn];
      [exact Hin|apply liked_length_zero in Hn; congruence] end.
  - cbn [with_comments comments]. apply (splice_index_keeps_others comment_user).
    match goal with
    | Hf : List.find _ _ = Some ?c, Hu : negb (String.eqb _ caller) = false |- _ =>
        apply find_some in Hf as [Hf _];
        apply negb_false_iff, String.eqb_eq in Hu; rewrite <- Hu;
        now apply in_map
    end.
Qed.

Lemma entries_of_others_never_removed_witness :
  let first := Examples.a_comment Examples.comment1 Examples.bob "first" in
  let other := Examples.a_comment Examples.comment2 Examples.alice "other" in
  let post := Examples.a_post [Examples.like_of Examples.alice; Examples.like_of Examples.bob]
                              [other; first] in
  let db := Examples.db_posts [(Examples.post1, post)] in
  posts db !! Examples.post1 = Some post /\
  (exists post',
     posts (serve Examples.hex24 Examples.https_prefix
              (UnlikePost Examples.bob Examples.post1) db) !! Examples.post1 = Some post' /\
     likes_of_others Examples.bob (likes post') = [Examples.like_of Examples.alice]) /\
  (exists post',
     posts (serve Examples.hex24 Examples.https_prefix
              (DeleteComment Examples.bob Examples.post1 Examples.comment1) db)
       !! Examples.post1 = Some post' /\
     comments_of_others Examples.bob (comments post') = [other]).
Proof.
  intros first other post db.
  assert (Hpost : posts db !! Examples.post1 = Some post) by (vm_compute; reflexivity).
  split; [exact Hpost|].
  destruct (entries_of_others_never_removed Examples.hex24 Examples.https_prefix db
              Examples.bob Examples.post1 Examples.comment1 Examples.post1 post Hpost)
    as [(p1 & Hp1 & Hl) (p2 & Hp2 & Hc)].
  split; [exists p1|exists p2]; (split; [assumption|]).
  - rewrite Hl. reflexivity.
  - rewrite Hc. reflexivity.
Defined.

Lemma find_comment_first cid (before : list Comment) target after :
  ~ In cid (map comment_id before) -> comment_id target = cid ->
  List.find (fun comment => String.eqb (comment_id comment) cid)
            (before ++ target :: after) = Some target.
Proof.
  intros Hn Ht. induction before as [|c before IH]; cbn [app List.find].
  - now rewrite Ht, String.eqb_refl.
  - cbn [map In] in Hn.
    destruct (String.eqb_spec (comment_id c) cid) as [Heq|Hne]; [tauto|].
    apply IH. tauto.
Qed.

(** X22: when the comment named in a delete request is the first comment
    of the caller in the list (for one, when the caller has a single
    comment on the post), the handler removes exactly that comment and
    keeps the others in their order. *)
Theorem delete_comment_exact_when_first_of_author
  (valid_oid : string -> bool) (db : Db) (caller id cid : string) (post : Post)
  (before after : list Comment) (target : Comment) :
  valid_oid id = true ->
  posts db !! id = Some post ->
  comments post = before ++ target :: after ->
  comment_id target = cid ->
  comment_user target = caller ->
  ~ In cid (map comment_id before) ->
  ~ In caller (map comment_user before) ->
  run (delete_comment valid_oid caller id cid) db =
    (Sent {| status := 200%nat; res_body := Json (VComments (before ++ after)) |},
     set_posts (insert id (with_comments (before ++ after) post)) db).
Proof.
  intros Hid Hpost Hcs Htid Htu Hnid Hnu.
  unfold delete_comment. unfold_handler. rewrite Hid. hsimpl.
  rewrite Hpost. hsimpl. rewrite Hcs.
  rewrite (find_comment_first cid before target after Hnid Htid).
  rewrite Htu, String.eqb_refl. cbn [negb]. hsimpl.
  unfold Js.indexOf.
  rewrite (indexOf_from_first comment_user 0 caller before target after Hnu Htu).
  rewrite Z.add_0_l, splice_one_at. reflexivity.
Qed.

Lemma delete_comment_exact_when_first_of_author_witness :
  let other := Examples.a_comment Examples.comment2 Examples.alice "other" in
  let mine := Examples.a_comment Examples.comment1 Examples.bob "mine" in
  let post := Examples.a_post [] [other; mine] in
  let db := Examples.db_posts [(Examples.post1, post)] in
  (Examples.hex24 Examples.post1 = true /\
   posts db !! Examples.post1 = Some post /\
   comments post = [other] ++ mine :: [] /\
   comment_id mine = Examples.comment1 /\ comment_user mine = Examples.bob /\
   ~ In Examples.comment1 (map comment_id [other]) /\
   ~ In Examples.bob (map comment_user [other])) /\
  run (delete_comment Examples.hex24 Examples.bob Examples.post1 Examples.comment1) db =
    (Sent {| status := 200%nat; res_body := Json (VComments ([other] ++ [])) |},
     set_posts (insert Examples.post1 (with_comments ([other] ++ []) post)) db).
Proof.
  intros other mine post db.
  assert (H1 : Examples.hex24 Examples.post1 = true) by reflexivity.
  assert (H2 : posts db !! Examples.post1 = Some post) by (vm_compute; reflexivity).
  assert (H3 : comments post = [other] ++ mine :: []) by reflexivity.
  assert (H4 : comment_id mine = Examples.comment1) by reflexivity.
  assert (H5 : comment_user mine = Examples.bob) by reflexivity.
  assert (H6 : ~ In Examples.comment1 (map comment_id [other]))
    by (intros [H|[]]; discriminate H).
  assert (H7 : ~ In Examples.bob (map comment_user [other]))
    by (intros [H|[]]; discriminate H).
  split; [repeat split; assumption|].
  exact (delete_comment_exact_when_first_of_author Examples.hex24 db Examples.bob
           Examples.post1 Examples.comment1 post [other] [] mine
           H1 H2 H3 H4 H5 H6 H7).
Defined.

(** ** Removing an entry that is there *)

(** X23: a request to remove an experience (an education) entry under an
    identifier that is in the list removes the first entry with that
    identifier, keeps all the others in their order, saves the profile and
    answers it. *)
Theorem remove_entry_removes_first_match
  (valid_oid : string -> bool) (db : Db) (caller entry_id : string)
  (profile : Profile) :
  valid_oid caller = true ->
  profiles db !! caller = Some profile ->
  (In entry_id (map exp_id (experience profile)) ->
   exists before entry after,
     experience profile = before ++ entry :: after /\
     exp_id entry = entry_id /\ ~ In entry_id (map exp_id before) /\
     run (remove_experience valid_oid caller entry_id) db =
       let profile' := with_experience (before ++ after) profile in
       (Sent {| status := 200%nat; res_body := Json (VProfile profile') |},
        set_profiles (insert caller profile') db))
  /\
  (In entry_id (map edu_id (education profile)) ->
   exists before entry after,
     education profile = before ++ entry :: after /\
     edu_id entry = entry_id /\ ~ In entry_id (map edu_id before) /\
     run (remove_education valid_oid caller entry_id) db =
       let profile' := with_education (before ++ after) profile in
       (Sent {| status := 200%nat; res_body := Json (VProfile profile') |},
        set_profiles (insert caller profile') db)).
Proof.
  intros Hcaller Hprofile. split; intros Hin.
  - exact (remove_experience_matched valid_oid db caller entry_id profile
             Hcaller Hprofile Hin).
  - exact (remove_education_matched valid_oid db caller entry_id profile
             Hcaller Hprofile Hin).
Qed.

Lemma remove_entry_removes_first_match_witness :
  let profile :=
    Examples.a_profile
      [Examples.an_experience Examples.exp1; Examples.an_experience Examples.exp2]
      [Examples.an_education Examples.edu1] in
  let db := Examples.db_profile profile in
  (Examples.hex24 Examples.alice = true /\
   profiles db !! Examples.alice = Some profile /\
   In Examples.exp2 (map exp_id (experience profile))) /\
  exists before entry after,
    experience profile = before ++ entry :: after /\
    exp_id entry = Examples.exp2 /\ ~ In Examples.exp2 (map exp_id before) /\
    run (remove_experience Examples.hex24 Examples.alice Examples.exp2) db =
      let profile' := with_experience (before ++ after) profile in
      (Sent {| status := 200%nat; res_body := Json (VProfile profile') |},
       set_profiles (insert Examples.alice profile') db).
Proof.
  intros profile db.
  assert (H1 : Examples.hex24 Examples.alice = true) by reflexivity.
  assert (H2 : profiles db !! Examples.alice = Some profile) by (vm_compute; reflexivity).
  assert (H3 : In Examples.exp2 (map exp_id (experience profile)))
    by (right; left; reflexivity).
  split; [repeat split; assumption|].
  exact (proj1 (remove_entry_removes_first_match Examples.hex24 db Examples.alice
                  Examples.exp2 profile H1 H2) H3).
Defined.

(** ** Validation answers of the routes that send the error list *)

(** X24: a request to create a post or to add a comment whose [text] is
    missing or empty, and a profile upsert whose [status] is missing or
    empty, is answered 400 with a list of errors that holds the message of
    the failed check under the name of the field; nothing is stored. *)
Theorem missing_field_is_reported
  (valid_oid : string -> bool) (normalize : string -> option string)
  (db : Db) (caller id new_id : string) (b : gmap string bval) :
  (field b "text" = BUndefined \/ field b "text" = BString EmptyString ->
   exists errors,
     In {| ve_msg := "Text is required"; ve_param := "text";
           ve_value := field b "text" |} errors /\
     run (create_post valid_oid caller b new_id) db =
       (Sent {| status := 400%nat;
                res_body := JsonObject [("errors", VErrors errors)] |}, db) /\
     run (add_comment valid_oid caller id b new_id) db =
       (Sent {| status := 400%nat;
                res_body := JsonObject [("errors", VErrors errors)] |}, db))
  /\
  (field b "status" = BUndefined \/ field b "status" = BString EmptyString ->
   exists errors,
     In {| ve_msg := "Status is required"; ve_param := "status";
           ve_value := field b "status" |} errors /\
     run (upsert_profile valid_oid normalize caller b) db =
       (Sent {| status := 400%nat;
                res_body := JsonObject [("errors", VErrors errors)] |}, db)).
Proof.
  split; intros Hf.
  - pose proof (validationResult_required [("text", "Text is required")] b
                  "text" "Text is required" (or_introl eq_refl) Hf) as Hin.
    eexists. split; [exact Hin|].
    assert (Hne : validationResult [("text", "Text is required")] b <> [])
      by (intros He; rewrite He in Hin; destruct Hin).
    split.
    + now apply create_post_invalid.
    + now apply add_comment_invalid.
  - pose proof (validationResult_required
                  [("status", "Status is required"); ("skills", "Skills are required")]
                  b "status" "Status is required" (or_introl eq_refl) Hf) as Hin.
    eexists. split; [exact Hin|].
    apply upsert_profile_invalid.
    intros He; rewrite He in Hin; destruct Hin.
Qed.

Lemma missing_field_is_reported_witness :
  let db := Examples.db_posts [] in
  let b : gmap string bval := {[ "text" := BString "" ]} in
  (field b "text" = BUndefined \/ field b "text" = BString EmptyString) /\
  exists errors,
    In {| ve_msg := "Text is required"; ve_param := "text";
          ve_value := field b "text" |} errors /\
    run (create_post Examples.hex24 Examples.alice b Examples.post2) db =
      (Sent {| status := 400%nat;
               res_body := JsonObject [("errors", VErrors errors)] |}, db) /\
    run (add_comment Examples.hex24 Examples.alice Examples.post1 b Examples.post2) db =
      (Sent {| status := 400%nat;
               res_body := JsonObject [("errors", VErrors errors)] |}, db).
Proof.
  intros db b.
  assert (Hf : field b "text" = BUndefined \/ field b "text" = BString EmptyString)
    by (right; vm_compute; reflexivity).
  split; [exact Hf|].
  exact (proj1 (missing_field_is_reported Examples.hex24 Examples.https_prefix db
                  Examples.alice Examples.post1 Examples.post2 b) Hf).
Defined.

(** ** The [Alert] component *)

(** X25: the [Alert] component renders nothing ([false]) exactly when
    [alerts] is [null] or empty; otherwise it renders one element per
    alert, in the order of the alerts, keyed by the alert's identifier,
    showing its message, with the class ["alert alert-"] followed by the
    alert's type. *)
Theorem Alert_renders_each_alert (alerts : option (list AlertComponent.alert)) :
  match AlertComponent.Alert alerts with
  | AlertComponent.RFalse => alerts = None \/ alerts = Some []
  | AlertComponent.RElements ds =>
      exists l, alerts = Some l /\ l <> [] /\
        map AlertComponent.key ds = map AlertComponent.alert_id l /\
        map AlertComponent.children ds = map AlertComponent.alert_msg l /\
        map AlertComponent.className ds =
          map (fun a => ("alert alert-" ++ AlertComponent.alertType a)%string) l
  end.
Proof.
  destruct alerts as [[|a l]|]; cbn [AlertComponent.Alert length Nat.ltb Nat.leb];
    [right; reflexivity| |left; reflexivity].
  exists (a :: l). split; [reflexivity|]. split; [discriminate|].
  rewrite !map_map. repeat split.
Qed.

(** ** Malformed identifiers *)

(** X26: what a post identifier that cannot be cast gives on the routes of
    a post that catch the cast error: reading and deleting the post are
    answered 404; adding a comment (with a text that is a non-empty string)
    and deleting a comment are answered 500; none of them changes the
    store. *)
Theorem malformed_post_id_answers
  (valid_oid : string -> bool) (db : Db) (caller id new_id cid : string)
  (b : gmap string bval) (text : string) :
  valid_oid id = false ->
  valid_oid caller = true ->
  field b "text" = BString text ->
  text <> EmptyString ->
  run (get_post valid_oid id) db =
    (Sent {| status := 404%nat;
             res_body := JsonObject [("msg", VString "Post not found")] |}, db) /\
  run (delete_post valid_oid caller id) db =
    (Sent {| status := 404%nat;
             res_body := JsonObject [("msg", VString "Post not found")] |}, db) /\
  run (add_comment valid_oid caller id b new_id) db =
    (Sent {| status := 500%nat; res_body := Text "Server error" |}, db) /\
  run (delete_comment valid_oid caller id cid) db =
    (Sent {| status := 500%nat; res_body := Text "Server error" |}, db).
Proof.
  intros Hid Hcaller Htext Hne.
  pose proof (text_validated b text Htext Hne) as Hvalid. repeat split.
  - unfold get_post. unfold_handler. rewrite Hid. reflexivity.
  - now apply delete_post_malformed.
  - unfold add_comment. rewrite Hvalid. cbn [errors_isEmpty negb].
    unfold_handler. rewrite Hcaller, Hid. reflexivity.
  - apply delete_comment_no_post. now left.
Qed.

Lemma malformed_post_id_answers_witness :
  let db := Examples.db_posts [(Examples.post1, Examples.a_post [] [])] in
  let b : gmap string bval := {[ "text" := BString "nice" ]} in
  (Examples.hex24 "42" = false /\ Examples.hex24 Examples.alice = true /\
   field b "text" = BString "nice" /\ "nice" <> EmptyString) /\
  run (get_post Examples.hex24 "42") db =
    (Sent {| status := 404%nat;
             res_body := JsonObject [("msg", VString "Post not found")] |}, db) /\
  run (delete_post Examples.hex24 Examples.alice "42") db =
    (Sent {| status := 404%nat;
             res_body := JsonObject [("msg", VString "Post not found")] |}, db) /\
  run (add_comment Examples.hex24 Examples.alice "42" b Examples.comment1) db =
    (Sent {| status := 500%nat; res_body := Text "Server error" |}, db) /\
  run (delete_comment Examples.hex24 Examples.alice "42" Examples.comment1) db =
    (Sent {| status := 500%nat; res_body := Text "Server error" |}, db).
Proof.
  intros db b.
  assert (H1 : Examples.hex24 "42" = false) by reflexivity.
  assert (H2 : Examples.hex24 Examples.alice = true) by reflexivity.
  assert (H3 : field b "text" = BString "nice") by (vm_compute; reflexivity).
  assert (H4 : "nice" <> EmptyString) by discriminate.
  split; [repeat split; assumption|].
  exact (malformed_post_id_answers Examples.hex24 db Examples.alice "42"
           Examples.comment1 Examples.comment1 b "nice" H1 H2 H3 H4).
Defined.

(** ** Whose profile a profile is *)

Lemma build_profileFields_user normalize caller b db pf db' :
  build_profileFields normalize caller b db = (Normal pf, db') ->
  pf_user pf = caller.
Proof.
  unfold build_profileFields, bind, ret.
  repeat match goal with
    | |- context [match ?m db with _ => _ end] =>
        destruct (m db) as [[?|?] ?]; try discriminate
    | |- context [match ?m ?d with _ => _ end] =>
        destruct (m d) as [[?|?] ?]; try discriminate
    end.
  now intros [= <- _].
Qed.

(** X27: the routers keep every profile under the user it names: an
    upsert stores the caller as the profile's user whatever the body
    holds, and no other request changes the user of a profile. *)
Theorem serve_keeps_profiles_owned
  (valid_oid : string -> bool) (normalize : string -> option string)
  (r : request) (db : Db) :
  profiles_owned db -> profiles_owned (serve valid_oid normalize r db).
Proof.
  intros Hdb. unfold serve, run.
  destruct r.
  9: { (* the profile upsert *)
    cbn [handler]. unfold upsert_profile.
    destruct (negb _); [exact Hdb|].
    unfold bind at 1.
    pose proof (build_profileFields_db normalize caller b db) as Hb.
    destruct (build_profileFields normalize caller b db) as [[pf|e] db'] eqn:Hbuild;
      cbn [snd] in Hb; subst db'; [|exact Hdb].
    apply build_profileFields_user in Hbuild.
    unfold_handler. destruct (valid_oid caller); hsimpl; [|exact Hdb].
    cbn [snd]. intros user p. cbn [set_profiles profiles].
    destruct (decide (caller = user)) as [<-|Hne].
    - rewrite lookup_insert_eq. intros [= <-].
      destruct (profiles db !! caller); exact Hbuild.
    - rewrite lookup_insert_ne by exact Hne. apply Hdb. }
  all: request_paths; cbn [snd]; try exact Hdb; intros user stored;
    cbn [set_posts set_profiles set_users profiles].
  all: try (intros Hl; apply lookup_delete_Some in Hl as [_ Hl]; now apply Hdb).
  all: try apply Hdb.
  all: destruct (decide (caller = user)) as [<-|Hne];
    [ rewrite lookup_insert_eq; intros [= <-];
      cbn [with_experience with_education fields]; eauto
    | rewrite lookup_insert_ne by exact Hne; apply Hdb ].
Qed.

Lemma serve_keeps_profiles_owned_witness :
  let db := Examples.db_profile (Examples.a_profile [] []) in
  let r := UpsertProfile Examples.bob
             (<["user" := BString Examples.alice]> Examples.minimal_profile_body) in
  profiles_owned db /\
  profiles_owned (serve Examples.hex24 Examples.https_prefix r db).
Proof.
  intros db r.
  assert (Hdb : profiles_owned db).
  { intros user p Hl. subst db. unfold Examples.db_profile in Hl.
    cbn [profiles] in Hl. apply lookup_singleton_Some in Hl as [<- <-]. reflexivity. }
  split; [exact Hdb|].
  exact (serve_keeps_profiles_owned Examples.hex24 Examples.https_prefix r db Hdb).
Defined.

Example upsert_ignores_user_of_body :
  let db := Examples.db_profile (Examples.a_profile [] []) in
  let db' := serve Examples.hex24 Examples.https_prefix
               (UpsertProfile Examples.bob
                  (<["user" := BString Examples.alice]> Examples.minimal_profile_body)) db in
  profiles db' !! Examples.alice = Some (Examples.a_profile [] []) /\
  (pf_user ∘ fields) <$> (profiles db' !! Examples.bob) = Some Examples.bob.
Proof. vm_compute. split; reflexivity. Qed.
